(** * AIQLeads Notion task uploader: a shallow embedding of
      [notion_task_uploader.py] and the properties of its three parts,
      the column normaliser, the remote index builder and the sync driver. *)

From Stdlib Require Import String Ascii List Arith ZArith Lia ZifyNat.
From stdpp Require Import base option list strings gmap fin_maps.

Local Open Scope string_scope.
Local Open Scope nat_scope.

(** ** Python values held by a row

    [csv.DictReader] yields one dictionary per line.  Its keys are the
    header names; a cell that is present is a [str], a cell missing at
    the end of a short line is [None] (the reader's [restval]).  Surplus
    cells of a long line are stored under the key [None], which is not a
    string: no name of the translation table and no later [.get] can
    reach that entry, and it is left out of a row here. *)

Inductive pyval : Type :=
| PNone
| PStr (s : string).

Global Instance pyval_eq_dec : EqDecision pyval.
Proof. solve_decision. Defined.

(** Python truthiness: [None] and the empty string are false. *)
Definition truthy (v : pyval) : bool :=
  match v with
  | PNone => false
  | PStr s => negb (String.eqb s "")
  end.

(** One line of an input file, in header order ([row.items()]). *)
Definition row : Type := list (string * pyval).

(** A normalised task, the dictionary [task] of [process_csv_files]. *)
Abbreviation task := (gmap string pyval).

(** ** The translation table *)

Definition COLUMN_MAPPING : list (string * string) :=
  [ ("Week/Milestone", "Sprint");
    ("Task Name", "Category");
    ("Description", "Task Description");
    ("Assigned LLM Tools", "Tools/APIs Required");
    ("Files Created", "API/Tokens Required");
    ("Dependencies", "Dependencies");
    ("Enhancements", "Notes/Comments");
    ("Acceptance Criteria", "Notes/Comments");
    ("Status", "Status");
    ("Priority", "Priority");
    ("Due Date", "Due Date");
    ("Estimated Effort", "Estimated Effort") ].

(** [COLUMN_MAPPING[old_key]], with [None] for [old_key not in COLUMN_MAPPING]. *)
Fixpoint assoc (tbl : list (string * string)) (k : string) : option string :=
  match tbl with
  | [] => None
  | (k', v) :: tbl' => if String.eqb k k' then Some v else assoc tbl' k
  end.

Definition mapped (old_key : string) : option string :=
  assoc COLUMN_MAPPING old_key.

(** ** The schema normaliser (lines 237-253)

    The body of [for old_key, value in row.items()].  The only statement
    that can raise is [task[new_key] += f" | {value}"], a [TypeError] when
    the value already stored is [None]; the result is [None] then. *)

Definition normalize_field (t : task) (kv : string * pyval) : option task :=
  let '(old_key, value) := kv in
  match mapped old_key with
  | Some new_key =>
      if String.eqb new_key "Notes/Comments" && bool_decide (is_Some (t !! new_key)) && truthy value
      then match t !! new_key, value with
           | Some (PStr old), PStr v => Some (<[new_key := PStr (old ++ " | " ++ v)]> t)
           | _, _ => None
           end
      else Some (<[new_key := value]> t)
  | None => Some (<[old_key := value]> t)
  end.

Fixpoint normalize_fields (t : task) (r : row) : option task :=
  match r with
  | [] => Some t
  | kv :: r' =>
      match normalize_field t kv with
      | Some t' => normalize_fields t' r'
      | None => None
      end
  end.

(** [if "Category" not in task and "Task Name" in task: ...] *)
Definition ensure_category (t : task) : task :=
  match t !! "Category", t !! "Task Name" with
  | None, Some name => <["Category" := name]> t
  | _, _ => t
  end.

Definition normalize_row (r : row) : option task :=
  match normalize_fields ∅ r with
  | Some t => Some (ensure_category t)
  | None => None
  end.


(** ** Dates: [datetime.strptime(s, "%m/%d/%Y")] and [strftime("%Y-%m-%d")]

    The two library calls of lines 194-195, modelled on ASCII text: the
    properties that rest on a text failing to parse are stated for ASCII
    text, those that name the year written for years from 1000 on.
    [strptime] compiles the format to the regular expression
    [(1[0-2]|0[1-9]|[1-9])/(3[0-1]|[1-2]\d|0[1-9]|[1-9]| [1-9])/(\d\d\d\d)],
    takes the first match at the start of the text, raises [ValueError]
    when there is none or when text remains after it, and raises
    [ValueError] again when the three numbers are not a calendar date.
    A matcher returns its matches in the order the regular expression
    engine tries them, each with the text left over. *)

Definition is_digit (c : ascii) : bool :=
  (48 <=? nat_of_ascii c) && (nat_of_ascii c <=? 57).

Definition digit_val (c : ascii) : nat := nat_of_ascii c - 48.

Definition in_range (lo hi : nat) (c : ascii) : bool :=
  is_digit c && (lo <=? digit_val c) && (digit_val c <=? hi).

Definition matcher (A : Type) : Type := string -> list (A * string).

(** One character of the class [[lo-hi]], read as a number. *)
Definition re_class (lo hi : nat) : matcher nat := fun s =>
  match s with
  | String c rest => if in_range lo hi c then [(digit_val c, rest)] else []
  | EmptyString => []
  end.

(** A literal character. *)
Definition re_lit (a : ascii) : matcher unit := fun s =>
  match s with
  | String c rest => if Ascii.eqb c a then [(tt, rest)] else []
  | EmptyString => []
  end.

Definition re_seq {A B C : Type} (f : A -> B -> C) (p : matcher A) (q : matcher B) : matcher C :=
  fun s => flat_map (fun '(a, s1) => map (fun '(b, s2) => (f a b, s2)) (q s1)) (p s).

Definition re_alt {A : Type} (p q : matcher A) : matcher A :=
  fun s => (p s ++ q s)%list.

Definition two_digits (hi lo : nat) : nat := 10 * hi + lo.

(** [%m]: [1[0-2]|0[1-9]|[1-9]] *)
Definition re_m : matcher nat :=
  re_alt (re_seq two_digits (re_class 1 1) (re_class 0 2))
 (re_alt (re_seq two_digits (re_class 0 0) (re_class 1 9))
         (re_class 1 9)).

(** [%d]: [3[0-1]|[1-2]\d|0[1-9]|[1-9]| [1-9]] *)
Definition re_d : matcher nat :=
  re_alt (re_seq two_digits (re_class 3 3) (re_class 0 1))
 (re_alt (re_seq two_digits (re_class 1 2) (re_class 0 9))
 (re_alt (re_seq two_digits (re_class 0 0) (re_class 1 9))
 (re_alt (re_class 1 9)
         (re_seq (fun _ d => d) (re_lit " "%char) (re_class 1 9))))).

(** [%Y]: [\d\d\d\d] *)
Definition re_Y : matcher nat :=
  re_seq (fun hi lo => 100 * hi + lo)
         (re_seq two_digits (re_class 0 9) (re_class 0 9))
         (re_seq two_digits (re_class 0 9) (re_class 0 9)).

Record date : Type := mkdate { year : nat; month : nat; day : nat }.

(** The whole format [%m/%d/%Y]. *)
Definition re_mdY : matcher date :=
  re_seq (fun m dy => mkdate (snd dy) m (fst dy)) re_m
 (re_seq (fun _ dy => dy) (re_lit "/"%char)
 (re_seq (fun d y => (d, y)) re_d
 (re_seq (fun _ y => y) (re_lit "/"%char) re_Y))).

Definition is_leap (y : nat) : bool :=
  (y mod 4 =? 0) && (negb (y mod 100 =? 0) || (y mod 400 =? 0)).

Definition days_in_month (y m : nat) : nat :=
  match m with
  | 2 => if is_leap y then 29 else 28
  | 4 | 6 | 9 | 11 => 30
  | _ => 31
  end.

(** The range checks of the [datetime] constructor. *)
Definition valid_date (d : date) : bool :=
  (1 <=? year d) && (year d <=? 99 * 100 + 99) &&
  (1 <=? month d) && (month d <=? 12) &&
  (1 <=? day d) && (day d <=? days_in_month (year d) (month d)).

(** [None] stands for [ValueError]. *)
Definition strptime_mdY (s : string) : option date :=
  match re_mdY s with
  | (d, EmptyString) :: _ => if valid_date d then Some d else None
  | _ => None
  end.

Definition digit_char (n : nat) : ascii := ascii_of_nat (48 + n mod 10).

Definition pad2 (n : nat) : string :=
  String (digit_char (n / 10)) (String (digit_char n) EmptyString).

Definition pad4 (n : nat) : string := pad2 (n / 100) ++ pad2 n.

(** [dt.strftime("%Y-%m-%d")].  The year is written with four digits;
    below the year 1000 the leading zeros depend on the C library, and the
    properties that name a year are stated from 1000 on. *)
Definition strftime_Ymd (d : date) : string :=
  pad4 (year d) ++ "-" ++ pad2 (month d) ++ "-" ++ pad2 (day d).

(** ["-" in s] *)
Fixpoint contains_dash (s : string) : bool :=
  match s with
  | EmptyString => false
  | String c rest => Ascii.eqb c "-"%char || contains_dash rest
  end.


(** ** Remote properties ([_convert_to_notion_properties], lines 135-224) *)

Inductive notion_prop : Type :=
| Title (content : pyval)       (* {"title": [{"text": {"content": _}}]} *)
| RichText (content : pyval)    (* {"rich_text": [{"text": {"content": _}}]} *)
| Select (name : pyval)         (* {"select": {"name": _}} *)
| DateStart (start : pyval).    (* {"date": {"start": _}} *)

Global Instance notion_prop_eq_dec : EqDecision notion_prop.
Proof. solve_decision. Defined.

Abbreviation properties := (gmap string notion_prop).

(** [task_data.get(key, default)] *)
Definition get (t : task) (key : string) (dflt : pyval) : pyval :=
  default dflt (t !! key).

(** [if value: properties[key] = mk(value)] *)
Definition set_if_truthy (key : string) (mk : pyval -> notion_prop) (value : pyval)
    (props : properties) : properties :=
  if truthy value then <[key := mk value]> props else props.

(** Lines 188-201: the value is reparsed only when it holds no ["-"]; a
    [ValueError] of [strptime] is swallowed and leaves the map as it was. *)
Definition set_due_date (due_date : pyval) (props : properties) : properties :=
  match due_date with
  | PStr s =>
      if truthy due_date then
        if negb (contains_dash s) then
          match strptime_mdY s with
          | Some dt => <["Due Date" := DateStart (PStr (strftime_Ymd dt))]> props
          | None => props
          end
        else <["Due Date" := DateStart due_date]> props
      else props
  | PNone => props
  end.

Definition _convert_to_notion_properties (task_data : task) : properties :=
  let props : properties := ∅ in
  let props := <["Category" := Title (get task_data "Category" (PStr ""))]> props in
  let props := set_if_truthy "Sprint" RichText (get task_data "Sprint" (PStr "")) props in
  let props := set_if_truthy "Task Description" RichText (get task_data "Task Description" (PStr "")) props in
  let props := set_if_truthy "Tools/APIs Required" RichText (get task_data "Tools/APIs Required" (PStr "")) props in
  let props := set_if_truthy "API/Tokens Required" RichText (get task_data "API/Tokens Required" (PStr "")) props in
  let props := set_if_truthy "Status" Select (get task_data "Status" (PStr "Not Started")) props in
  let props := set_if_truthy "Priority" Select (get task_data "Priority" (PStr "Normal")) props in
  let props := set_due_date (get task_data "Due Date" (PStr "")) props in
  let props := set_if_truthy "Estimated Effort" Select (get task_data "Estimated Effort" (PStr "")) props in
  let props := set_if_truthy "Dependencies" RichText (get task_data "Dependencies" (PStr "")) props in
  let props := set_if_truthy "Notes/Comments" RichText (get task_data "Notes/Comments" (PStr "")) props in
  props.


(** ** Reading the input files (lines 228-267) *)

Global Instance pyval_countable : Countable pyval.
Proof.
  refine (inj_countable' (fun v => match v with PNone => None | PStr s => Some s end)
                         (fun o => match o with None => PNone | Some s => PStr s end) _).
  intros []; reflexivity.
Defined.

(** An input file as the reader sees it: the rows it yields, and whether
    [open] or the reader raises after them (a file that cannot be opened
    yields no row). *)
Record csv_file : Type := mkfile {
  file_path : string;
  rows : list row;
  read_error : bool
}.

(** Lines written to standard output. *)
Inductive log_line : Type :=
| DuplicateWarning (category : pyval)   (* Warning: Duplicate task found: _ *)
| FileError (path : string)             (* Error processing file _: ... *)
| UpdatedTask (category : pyval)        (* Updated task: _ *)
| CreatedTask (category : pyval)        (* Created task: _ *)
| TaskError (category : pyval).         (* Error processing task _: ... *)

Record reader_state : Type := mkreader {
  all_tasks : list task;
  unique_categories : gset pyval;
  reader_out : list log_line
}.

(** The body of [for row in reader], after the row is normalised; [None]
    when the normaliser raised. *)
Definition read_row (st : reader_state) (r : row) : option reader_state :=
  match normalize_row r with
  | None => None
  | Some t =>
      if negb (truthy (get t "Category" PNone)) then Some st
      else
        let category := get t "Category" PNone in
        Some {| all_tasks := all_tasks st ++ [t];
                unique_categories := unique_categories st ∪ {[ category ]};
                reader_out :=
                  if bool_decide (category ∈ unique_categories st)
                  then reader_out st ++ [DuplicateWarning category]
                  else reader_out st |}
  end.

(** The rows of one file; the flag tells that a row raised, which leaves
    the rest of the file unread. *)
Fixpoint read_rows (st : reader_state) (rs : list row) : reader_state * bool :=
  match rs with
  | [] => (st, false)
  | r :: rs' =>
      match read_row st r with
      | Some st' => read_rows st' rs'
      | None => (st, true)
      end
  end.

(** [try: ... except Exception as e: print(...)] around one file. *)
Definition read_file (st : reader_state) (f : csv_file) : reader_state :=
  let '(st', raised) := read_rows st (rows f) in
  if raised || read_error f
  then {| all_tasks := all_tasks st';
          unique_categories := unique_categories st';
          reader_out := reader_out st' ++ [FileError (file_path f)] |}
  else st'.

Definition read_files (files : list csv_file) : reader_state :=
  foldl read_file {| all_tasks := []; unique_categories := ∅; reader_out := [] |} files.

(** ** Records of the remote collection

    A page of the database as [_fetch_existing_tasks] reads it.  [None]
    is an absent key, for which the code supplies an empty default; for
    [content] it is a JSON [null] as well. *)

Record text_obj : Type := { content : option string }.
Record rich_text_item : Type := { text : option text_obj }.
Record category_property : Type := { title : option (list rich_text_item) }.
Record page_properties : Type := { Category : option category_property }.
Record page : Type := { page_id : string; page_props : option page_properties }.

Record query_response : Type := {
  results : list page;
  has_more : bool;
  next_cursor : option string
}.

(** The test of line 93 and the name of line 94. *)
Definition page_title (p : page) : option string :=
  let properties := default {| Category := None |} (page_props p) in
  let category_property := default {| title := None |} (Category properties) in
  let title := default [] (title category_property) in
  match title with
  | first :: _ =>
      match default {| content := None |} (text first) with
      | {| content := Some c |} => if String.eqb c "" then None else Some c
      | {| content := None |} => None
      end
  | [] => None
  end.

Abbreviation index := (gmap string string).

(** The body of [for page in data.get("results", [])]. *)
Definition register (existing_tasks : index) (p : page) : index :=
  match page_title p with
  | Some task_name => <[task_name := page_id p]> existing_tasks
  | None => existing_tasks
  end.

(** What [if start_cursor: payload["start_cursor"] = start_cursor] puts in
    the request: nothing for [None] and for an empty token. *)
Definition payload (start_cursor : option string) : option string :=
  match start_cursor with
  | Some c => if String.eqb c "" then None else Some c
  | None => None
  end.

(** [category in uploader.existing_tasks] and [uploader.existing_tasks[category]] *)
Definition lookup_index (existing_tasks : index) (category : pyval) : option string :=
  match category with
  | PStr c => existing_tasks !! c
  | PNone => None
  end.

(** [mode in [...]] *)
Definition mode_in (mode : string) (modes : list string) : bool :=
  existsb (String.eqb mode) modes.

Inductive call : Type :=
| CreatePage (props : properties)                    (* POST /pages *)
| UpdatePage (page : string) (props : properties).   (* PATCH /pages/{page} *)

Record tally : Type := mktally {
  total : nat;
  created : nat;
  updated : nat;
  errors : nat
}.

Inductive fetch_status : Type :=
| Completed     (* the loop ended on has_more = false *)
| Raised        (* a request raised; the exception leaves the function *)
| Unfinished.   (* the loop is still asking for pages *)

(** ** The remote service

    The three HTTP calls of the uploader against a service with a state of
    its own.  A call either returns or raises ([None], [false]): a
    transport failure and a non-success status ([raise_for_status]) are
    the same to the callers. *)

Section Remote.

Context {World : Type}.
(** POST /databases/{id}/query with the given [start_cursor], if any. *)
Variable post_query : World -> option string -> World * option query_response.
(** POST /pages *)
Variable post_page : World -> properties -> World * bool.
(** PATCH /pages/{page} *)
Variable patch_page : World -> string -> properties -> World * bool.

Record fetch_state : Type := mkfetch {
  fetch_world : World;
  existing_tasks : index;
  requests : list (option string);
  status : fetch_status
}.

(** The [while has_more] loop of [_fetch_existing_tasks] (lines 74-100);
    [fuel] bounds the number of requests. *)
Fixpoint fetch_loop (fuel : nat) (w : World) (start_cursor : option string)
    (existing : index) (sent : list (option string)) : fetch_state :=
  match fuel with
  | 0 => mkfetch w existing sent Unfinished
  | S fuel' =>
      let request := payload start_cursor in
      match post_query w request with
      | (w', None) => mkfetch w' existing (sent ++ [request]) Raised
      | (w', Some data) =>
          let existing' := foldl register existing (results data) in
          if has_more data
          then fetch_loop fuel' w' (next_cursor data) existing' (sent ++ [request])
          else mkfetch w' existing' (sent ++ [request]) Completed
      end
  end.

Definition _fetch_existing_tasks (fuel : nat) (w : World) : fetch_state :=
  fetch_loop fuel w None ∅ [].

Record sync_state : Type := mksync {
  world : World;
  counters : tally;
  calls : list call;
  sync_out : list log_line
}.

Definition count_created (r : tally) : tally :=
  {| total := total r; created := created r + 1; updated := updated r; errors := errors r |}.
Definition count_updated (r : tally) : tally :=
  {| total := total r; created := created r; updated := updated r + 1; errors := errors r |}.
Definition count_error (r : tally) : tally :=
  {| total := total r; created := created r; updated := updated r; errors := errors r + 1 |}.

(** [create_task] and [update_task]: the properties are converted, the
    call is sent, and [false] reports that it raised. *)
Definition create_task (w : World) (t : task) : World * bool * call :=
  let props := _convert_to_notion_properties t in
  (post_page w props, CreatePage props).

Definition update_task (w : World) (page : string) (t : task) : World * bool * call :=
  let props := _convert_to_notion_properties t in
  (patch_page w page props, UpdatePage page props).

(** The body of [for task in all_tasks] (lines 278-294). *)
Definition process_task (mode : string) (existing : index) (st : sync_state) (t : task)
    : sync_state :=
  let category := get t "Category" PNone in
  match lookup_index existing category with
  | Some page =>
      if mode_in mode ["update"; "both"] then
        match update_task (world st) page t with
        | (w', true, c) =>
            mksync w' (count_updated (counters st)) (calls st ++ [c])
                   (sync_out st ++ [UpdatedTask category])
        | (w', false, c) =>
            mksync w' (count_error (counters st)) (calls st ++ [c])
                   (sync_out st ++ [TaskError category])
        end
      else st
  | None =>
      if mode_in mode ["create"; "both"] then
        match create_task (world st) t with
        | (w', true, c) =>
            mksync w' (count_created (counters st)) (calls st ++ [c])
                   (sync_out st ++ [CreatedTask category])
        | (w', false, c) =>
            mksync w' (count_error (counters st)) (calls st ++ [c])
                   (sync_out st ++ [TaskError category])
        end
      else st
  end.

Definition upload (mode : string) (existing : index) (st : sync_state) (tasks : list task)
    : sync_state :=
  foldl (process_task mode existing) st tasks.

(** [process_csv_files]: read every file, then upload every task kept. *)
Definition process_csv_files (files : list csv_file) (mode : string)
    (existing : index) (w : World) : sync_state :=
  let rd := read_files files in
  upload mode existing
         (mksync w {| total := length (all_tasks rd); created := 0; updated := 0; errors := 0 |}
                 [] (reader_out rd))
         (all_tasks rd).

End Remote.

Arguments mkfetch {World}.
Arguments mksync {World}.

(** ** A scripted service

    A service that answers from a list prepared in advance, one entry per
    request, used to run the uploader on concrete exchanges.  When the list
    is used up a query raises and a page call succeeds. *)

Definition scripted_query (w : list (option query_response)) (request : option string)
    : list (option query_response) * option query_response :=
  match w with
  | [] => ([], None)
  | answer :: w' => (w', answer)
  end.

Definition scripted_post (w : list bool) (props : properties) : list bool * bool :=
  match w with
  | [] => ([], true)
  | ok :: w' => (w', ok)
  end.

Definition scripted_patch (w : list bool) (page : string) (props : properties)
    : list bool * bool :=
  match w with
  | [] => ([], true)
  | ok :: w' => (w', ok)
  end.

(** ** Notions used to state the properties *)

(** The name under which the normaliser stores a field. *)
Definition target (old_key : string) : string :=
  default old_key (mapped old_key).

(** The request, if any, that [process_task] sends for a task. *)
Definition dispatch (mode : string) (existing : index) (t : task) : list call :=
  match lookup_index existing (get t "Category" PNone) with
  | Some page =>
      if mode_in mode ["update"; "both"]
      then [UpdatePage page (_convert_to_notion_properties t)] else []
  | None =>
      if mode_in mode ["create"; "both"]
      then [CreatePage (_convert_to_notion_properties t)] else []
  end.

Definition is_update (c : call) : bool :=
  match c with UpdatePage _ _ => true | CreatePage _ => false end.

Definition is_create (c : call) : bool :=
  match c with CreatePage _ => true | UpdatePage _ _ => false end.

(** The page an update request is addressed to. *)
Definition call_page (c : call) : option string :=
  match c with UpdatePage page _ => Some page | CreatePage _ => None end.

(** The pages of the collection that carry a given title. *)
Definition titled (name : string) (p : page) : bool :=
  bool_decide (page_title p = Some name).

(** The task, if any, that a row adds to [all_tasks]. *)
Definition kept (r : row) : list task :=
  match normalize_row r with
  | Some t => if truthy (get t "Category" PNone) then [t] else []
  | None => []
  end.

(** The service, asked first with [start_cursor] and then with the cursor
    of each answer in turn, returns the answers [pages] one after the other
    and is left in the state [w_end]. *)
Fixpoint served {World : Type}
    (post_query : World -> option string -> World * option query_response)
    (w : World) (start_cursor : option string) (pages : list query_response)
    (w_end : World) : Prop :=
  match pages with
  | [] => w_end = w
  | data :: pages' =>
      exists w', post_query w (payload start_cursor) = (w', Some data) /\
                 served post_query w' (next_cursor data) pages' w_end
  end.

(** ** The entry point ([initialize], lines 58-65, and [main], lines 298-339)

    [main] is modelled from the point where the command line has been
    parsed, which leaves at least one file and a mode among "create",
    "update" and "both": [args_api_key] and [args_database_id] are the two options
    ([None] when not given), [env_api_key] and [env_database_id] what
    [os.environ.get] returned when the module was loaded. *)

(** Lines that [initialize] and [main] write to standard output. *)
Inductive main_line : Type :=
| ApiKeyRequired                 (* Error: Notion API key is required. ... *)
| DatabaseIdRequired             (* Error: Notion database ID is required. ... *)
| FoundExisting (n : nat)        (* Found _ existing tasks in Notion database *)
| InitializeError                (* Error initializing Notion uploader: ... *)
| RunLine (l : log_line)         (* a line of process_csv_files *)
| UploadSummary (r : tally)      (* Upload Summary: the four counts *)
| TopLevelError.                 (* Error: ... *)

(** [a or b] *)
Definition py_or (a b : pyval) : pyval := if truthy a then a else b.

Section Main.

Context {World : Type}.
Variable post_query : World -> option string -> World * option query_response.
Variable post_page : World -> properties -> World * bool.
Variable patch_page : World -> string -> properties -> World * bool.

(** [initialize]: the index is fetched and its size printed; an exception
    is printed and raised again (the status [Raised] of the result). *)
Definition initialize (fuel : nat) (w : World) : @fetch_state World * list main_line :=
  let f := _fetch_existing_tasks post_query fuel w in
  match status f with
  | Completed => (f, [FoundExisting (size (existing_tasks f))])
  | Raised => (f, [InitializeError])
  | Unfinished => (f, [])
  end.

Record main_result : Type := mkmain {
  exit_code : nat;
  main_world : World;
  main_calls : list call;
  main_out : list main_line
}.

(** [main]; the result is [None] while the index builder is still asking
    for pages. *)
Definition main (fuel : nat) (args_api_key args_database_id : pyval)
    (env_api_key env_database_id : pyval)
    (csv_files : list csv_file) (mode : string) (w : World) : option main_result :=
  let api_key := py_or args_api_key env_api_key in
  let database_id := py_or args_database_id env_database_id in
  if negb (truthy api_key) then Some (mkmain 1 w [] [ApiKeyRequired])
  else if negb (truthy database_id) then Some (mkmain 1 w [] [DatabaseIdRequired])
  else
    let '(f, out) := initialize fuel w in
    match status f with
    | Unfinished => None
    | Raised => Some (mkmain 1 (fetch_world f) [] (out ++ [TopLevelError]))
    | Completed =>
        let run := process_csv_files post_page patch_page csv_files mode
                     (existing_tasks f) (fetch_world f) in
        Some (mkmain 0 (world run) (calls run)
                (out ++ map RunLine (sync_out run) ++ [UploadSummary (counters run)]))
    end.

End Main.

Arguments mkmain {World}.

(** ** Further notions used to state properties *)

(** The names [_convert_to_notion_properties] reads and writes. *)
Definition canonical_fields : list string :=
  [ "Category"; "Sprint"; "Task Description"; "Tools/APIs Required";
    "API/Tokens Required"; "Status"; "Priority"; "Due Date";
    "Estimated Effort"; "Dependencies"; "Notes/Comments" ].

Definition rich_text_fields : list string :=
  [ "Sprint"; "Task Description"; "Tools/APIs Required"; "API/Tokens Required";
    "Dependencies"; "Notes/Comments" ].

(** The properties a request carries. *)
Definition call_props (c : call) : properties :=
  match c with CreatePage props => props | UpdatePage _ props => props end.

(** The rows of a file up to the first one on which the normaliser raises. *)
Fixpoint readable_prefix (rs : list row) : list row :=
  match rs with
  | [] => []
  | r :: rs' =>
      match normalize_row r with
      | Some _ => r :: readable_prefix rs'
      | None => []
      end
  end.

Definition is_warning (l : log_line) : bool :=
  match l with DuplicateWarning _ => true | _ => false end.

(** The cursor the builder holds after the pages [pages], all of which
    announce more. *)
Fixpoint cursor_after (start_cursor : option string) (pages : list query_response)
    : option string :=
  match pages with
  | [] => start_cursor
  | data :: pages' => cursor_after (next_cursor data) pages'
  end.

(** A task none of whose values is [None]. *)
Definition all_text (t : task) : Prop :=
  forall key v, t !! key = Some v -> v ≠ PNone.

(** The duplicate warnings among the lines of the reader. *)
Definition warnings (out : list log_line) : nat :=
  length (List.filter is_warning out).

(** The reader's account of the tasks it kept. *)
Definition counted (st : reader_state) : Prop :=
  length (all_tasks st) = size (unique_categories st) + warnings (reader_out st).

(** A text made of ASCII characters only.  On such a text the model of
    [strptime] above is the library's; on other texts the library's [\d]
    also takes the decimal digits of other scripts. *)
Fixpoint ascii_text (s : string) : bool :=
  match s with
  | EmptyString => true
  | String c rest => (nat_of_ascii c <? 128) && ascii_text rest
  end.

(** created + updated + errors *)
Definition outcomes (r : tally) : nat := created r + updated r + errors r.

(** * Properties *)

(** ** The date functions on zero-padded text *)

Section Dates.

Lemma digit_char_val n : nat_of_ascii (digit_char n) = 48 + n mod 10.
Proof.
  unfold digit_char. apply nat_ascii_embedding.
  pose proof (Nat.mod_upper_bound n 10). lia.
Qed.

Lemma re_class_digit_char n rest :
  re_class 0 9 (String (digit_char n) rest) = [(n mod 10, rest)].
Proof.
  unfold re_class, in_range, is_digit, digit_val. rewrite digit_char_val.
  pose proof (Nat.mod_upper_bound n 10 ltac:(lia)).
  replace (48 + n mod 10 - 48) with (n mod 10) by lia.
  rewrite !(proj2 (Nat.leb_le _ _)) by lia. reflexivity.
Qed.

Lemma pad2_app n rest :
  pad2 n ++ rest = String (digit_char (n / 10)) (String (digit_char n) rest).
Proof. reflexivity. Qed.

Lemma pad4_app y rest :
  pad4 y ++ rest =
  String (digit_char (y / 100 / 10)) (String (digit_char (y / 100))
    (String (digit_char (y / 10)) (String (digit_char y) rest))).
Proof. reflexivity. Qed.

Lemma re_Y_pad4 y rest : y <= 99 * 100 + 99 -> re_Y (pad4 y ++ rest) = [(y, rest)].
Proof.
  intros Hy. rewrite pad4_app. unfold re_Y, re_seq.
  rewrite re_class_digit_char. cbn [flat_map map app].
  rewrite re_class_digit_char. cbn [flat_map map app].
  rewrite re_class_digit_char. cbn [flat_map map app].
  rewrite re_class_digit_char. cbn [flat_map map app].
  f_equal. f_equal. unfold two_digits.
  zify. Z.div_mod_to_equations. lia.
Qed.

Lemma re_mdY_padded y m d rest :
  1 <= m <= 12 -> 1 <= d <= 31 -> y <= 99 * 100 + 99 ->
  re_mdY (pad2 m ++ "/" ++ pad2 d ++ "/" ++ pad4 y ++ rest) = [(mkdate y m d, rest)].
Proof.
  intros Hm Hd Hy.
  pose proof (re_Y_pad4 y rest Hy) as HY. revert HY.
  generalize (pad4 y ++ rest). intros tail HY.
  assert (Hm' : In m (seq 1 12)) by (apply in_seq; lia).
  assert (Hd' : In d (seq 1 31)) by (apply in_seq; lia).
  clear Hm Hd. cbn in Hm', Hd'.
  repeat (destruct Hm' as [<-|Hm']); [..|contradiction];
  repeat (destruct Hd' as [<-|Hd']); try contradiction.
  all: cbv -[re_Y]; rewrite HY; reflexivity.
Qed.

Lemma digit_char_not_dash n : Ascii.eqb (digit_char n) "-"%char = false.
Proof.
  apply Ascii.eqb_neq. intros H. apply (f_equal nat_of_ascii) in H.
  rewrite digit_char_val in H.
  change (nat_of_ascii "-"%char) with 45 in H. lia.
Qed.

Lemma padded_no_dash y m d :
  contains_dash (pad2 m ++ "/" ++ pad2 d ++ "/" ++ pad4 y) = false.
Proof.
  replace (pad4 y) with (pad4 y ++ "") by reflexivity.
  rewrite !pad2_app, pad4_app.
  repeat first
    [ progress cbn [contains_dash]
    | rewrite digit_char_not_dash
    | progress change ("/" ++ ?s) with (String "/"%char s) ].
  reflexivity.
Qed.

Lemma strptime_padded y m d :
  valid_date (mkdate y m d) = true ->
  strptime_mdY (pad2 m ++ "/" ++ pad2 d ++ "/" ++ pad4 y) = Some (mkdate y m d).
Proof.
  intros Hv. unfold strptime_mdY.
  replace (pad4 y) with (pad4 y ++ "") by reflexivity.
  assert (Hr : 1 <= m <= 12 /\ 1 <= d <= 31 /\ y <= 99 * 100 + 99).
  { unfold valid_date in Hv. cbn [year month day] in Hv.
    rewrite !andb_true_iff, !Nat.leb_le in Hv.
    assert (days_in_month y m <= 31); [|lia].
    unfold days_in_month. repeat (destruct m as [|m]; try lia); destruct (is_leap y); lia. }
  destruct Hr as (Hm & Hd & Hy).
  rewrite re_mdY_padded by done. by rewrite Hv.
Qed.
End Dates.

(** ** Remote properties of a task *)

Section Convert.

Implicit Types (t : task) (p : properties) (v : pyval).

Lemma lookup_set_if_truthy_ne key mk v p k :
  key ≠ k -> set_if_truthy key mk v p !! k = p !! k.
Proof.
  intros Hne. unfold set_if_truthy. destruct (truthy v); [|done].
  by rewrite lookup_insert_ne.
Qed.

Lemma lookup_set_if_truthy_eq key mk v p :
  set_if_truthy key mk v p !! key = if truthy v then Some (mk v) else p !! key.
Proof.
  unfold set_if_truthy. destruct (truthy v); [|done].
  by rewrite lookup_insert_eq.
Qed.

Lemma lookup_set_due_date_ne v p k :
  "Due Date" ≠ k -> set_due_date v p !! k = p !! k.
Proof.
  intros Hne. unfold set_due_date.
  destruct v as [|s]; [done|].
  destruct (truthy (PStr s)); [|done].
  destruct (negb (contains_dash s)).
  - destruct (strptime_mdY s); [|done]. by rewrite lookup_insert_ne.
  - by rewrite lookup_insert_ne.
Qed.

Lemma lookup_set_due_date_eq s p :
  s ≠ "" ->
  set_due_date (PStr s) p !! "Due Date" =
  if contains_dash s then Some (DateStart (PStr s))
  else match strptime_mdY s with
       | Some dt => Some (DateStart (PStr (strftime_Ymd dt)))
       | None => p !! "Due Date"
       end.
Proof.
  intros Hs. unfold set_due_date, truthy.
  apply String.eqb_neq in Hs. rewrite Hs. cbn [negb].
  destruct (contains_dash s); cbn [negb].
  - by rewrite lookup_insert_eq.
  - destruct (strptime_mdY s); [|done]. by rewrite lookup_insert_eq.
Qed.

Ltac convert_skip :=
  repeat first
    [ rewrite lookup_set_if_truthy_ne by done
    | rewrite lookup_set_due_date_ne by done
    | rewrite lookup_insert_ne by done ].

Lemma convert_status t :
  _convert_to_notion_properties t !! "Status" =
  let status := get t "Status" (PStr "Not Started") in
  if truthy status then Some (Select status) else None.
Proof.
  unfold _convert_to_notion_properties. cbv zeta.
  convert_skip. rewrite lookup_set_if_truthy_eq. convert_skip.
  by rewrite lookup_empty.
Qed.

Lemma convert_priority t :
  _convert_to_notion_properties t !! "Priority" =
  let priority := get t "Priority" (PStr "Normal") in
  if truthy priority then Some (Select priority) else None.
Proof.
  unfold _convert_to_notion_properties. cbv zeta.
  convert_skip. rewrite lookup_set_if_truthy_eq. convert_skip.
  by rewrite lookup_empty.
Qed.

Lemma convert_due_date t s :
  t !! "Due Date" = Some (PStr s) -> s ≠ "" ->
  _convert_to_notion_properties t !! "Due Date" =
  if contains_dash s then Some (DateStart (PStr s))
  else match strptime_mdY s with
       | Some dt => Some (DateStart (PStr (strftime_Ymd dt)))
       | None => None
       end.
Proof.
  intros Ht Hs. unfold _convert_to_notion_properties. cbv zeta.
  convert_skip. unfold get. rewrite Ht. cbn [default from_option id].
  rewrite lookup_set_due_date_eq by done. convert_skip.
  by rewrite lookup_empty.
Qed.

(** C9. When the task has no Status key the remote properties carry
    Status = "Not Started", and when it has no Priority key they carry
    Priority = "Normal"; when the key is there with an empty string the
    property is left out. *)
Theorem status_priority_defaults t :
  (t !! "Status" = None ->
     _convert_to_notion_properties t !! "Status" = Some (Select (PStr "Not Started"))) /\
  (t !! "Status" = Some (PStr "") ->
     _convert_to_notion_properties t !! "Status" = None) /\
  (t !! "Priority" = None ->
     _convert_to_notion_properties t !! "Priority" = Some (Select (PStr "Normal"))) /\
  (t !! "Priority" = Some (PStr "") ->
     _convert_to_notion_properties t !! "Priority" = None).
Proof.
  repeat split; intros H.
  - rewrite convert_status. unfold get. by rewrite H.
  - rewrite convert_status. unfold get. by rewrite H.
  - rewrite convert_priority. unfold get. by rewrite H.
  - rewrite convert_priority. unfold get. by rewrite H.
Qed.


End Convert.

(** ** The schema normaliser *)

Section Normaliser.

Implicit Types (t : task) (r : row) (v : pyval) (k key : string).

Lemma mapped_values k c :
  mapped k = Some c ->
  In c ["Sprint"; "Category"; "Task Description"; "Tools/APIs Required";
        "API/Tokens Required"; "Dependencies"; "Notes/Comments"; "Status";
        "Priority"; "Due Date"; "Estimated Effort"].
Proof.
  unfold mapped, COLUMN_MAPPING. cbn [assoc].
  repeat (destruct (String.eqb k _); [intros [= <-]; cbn; tauto|]).
  discriminate.
Qed.

(** A canonical name is either outside the table or translated to itself. *)
Lemma mapped_canonical k c :
  mapped k = Some c -> mapped c = None \/ mapped c = Some c.
Proof.
  intros H. apply mapped_values in H. cbn [In] in H.
  repeat (destruct H as [<-|H]; [vm_compute; tauto|]). contradiction.
Qed.

(** No field is ever stored under a name that the table translates to
    another one. *)
Lemma target_not_renamed k k' k0 :
  mapped k = Some k' -> k ≠ k' -> target k0 ≠ k.
Proof.
  intros Hk Hne Ht. unfold target in Ht.
  destruct (mapped k0) as [c|] eqn:Hk0; cbn in Ht; subst.
  - destruct (mapped_canonical _ _ Hk0); congruence.
  - congruence.
Qed.

Lemma normalize_field_direct t k v :
  mapped k ≠ Some "Notes/Comments" ->
  normalize_field t (k, v) = Some (<[target k := v]> t).
Proof.
  intros Hk. unfold normalize_field, target.
  destruct (mapped k) as [new_key|]; [|done]. cbn [default from_option id].
  destruct (String.eqb_spec new_key "Notes/Comments") as [->|_]; [done|].
  reflexivity.
Qed.

Lemma normalize_field_fresh t k v :
  t !! "Notes/Comments" = None ->
  normalize_field t (k, v) = Some (<[target k := v]> t).
Proof.
  intros Hn. unfold normalize_field, target.
  destruct (mapped k) as [new_key|]; [|done]. cbn [default from_option id].
  destruct (String.eqb_spec new_key "Notes/Comments") as [->|_]; [|done].
  rewrite Hn. rewrite bool_decide_eq_false_2 by (by intros [? ?]). reflexivity.
Qed.

Lemma normalize_field_falsy t k v :
  truthy v = false ->
  normalize_field t (k, v) = Some (<[target k := v]> t).
Proof.
  intros Hv. unfold normalize_field, target.
  destruct (mapped k) as [new_key|]; [|done]. cbn [default from_option id].
  by rewrite Hv, andb_false_r.
Qed.

Lemma normalize_field_append t k old s :
  mapped k = Some "Notes/Comments" ->
  t !! "Notes/Comments" = Some (PStr old) -> s ≠ "" ->
  normalize_field t (k, PStr s)
  = Some (<["Notes/Comments" := PStr (old ++ " | " ++ s)]> t).
Proof.
  intros Hk Hn Hs. unfold normalize_field. rewrite Hk, Hn.
  cbn [String.eqb]. rewrite bool_decide_eq_true_2 by eauto.
  unfold truthy. apply String.eqb_neq in Hs. rewrite Hs. reflexivity.
Qed.

(** Whatever the branch, a field writes one name only, its target. *)
Lemma normalize_field_writes t t' k v :
  normalize_field t (k, v) = Some t' ->
  is_Some (t' !! target k) /\ forall key, target k ≠ key -> t' !! key = t !! key.
Proof.
  unfold normalize_field, target.
  destruct (mapped k) as [new_key|]; cbn [default from_option id].
  - destruct (_ && _ && _).
    + destruct (t !! new_key) as [[|old]|]; destruct v; try discriminate.
      intros [= <-]. split; [by rewrite lookup_insert_eq|].
      intros key Hne. by rewrite lookup_insert_ne.
    + intros [= <-]. split; [by rewrite lookup_insert_eq|].
      intros key Hne. by rewrite lookup_insert_ne.
  - intros [= <-]. split; [by rewrite lookup_insert_eq|].
    intros key Hne. by rewrite lookup_insert_ne.
Qed.

Lemma normalize_field_keeps t t' k v key :
  normalize_field t (k, v) = Some t' -> is_Some (t !! key) -> is_Some (t' !! key).
Proof.
  intros H Hkey. destruct (normalize_field_writes _ _ _ _ H) as [Hw Ho].
  destruct (decide (target k = key)) as [<-|Hne]; [done|].
  by rewrite Ho.
Qed.

Lemma normalize_fields_app t r1 r2 :
  normalize_fields t (r1 ++ r2)%list = normalize_fields t r1 ≫= fun t' => normalize_fields t' r2.
Proof.
  revert t. induction r1 as [|kv r1 IH]; intros t; [done|].
  cbn [normalize_fields app]. destruct (normalize_field t kv); [apply IH|done].
Qed.

(** Fields stored elsewhere leave a name as it is. *)
Lemma normalize_fields_frame t t' r key :
  Forall (fun kv => target kv.1 ≠ key) r ->
  normalize_fields t r = Some t' -> t' !! key = t !! key.
Proof.
  intros Hr. revert t. induction Hr as [|[k v] r Hk _ IH]; intros t.
  - by intros [= <-].
  - cbn [normalize_fields]. destruct (normalize_field t (k, v)) as [t1|] eqn:H1; [|done].
    intros H. rewrite (IH _ H).
    by apply (normalize_field_writes _ _ _ _ H1).
Qed.

(** The only statement that can raise belongs to Notes/Comments. *)
Lemma normalize_fields_total t r :
  Forall (fun kv => target kv.1 ≠ "Notes/Comments") r ->
  is_Some (normalize_fields t r).
Proof.
  intros Hr. revert t. induction Hr as [|[k v] r Hk _ IH]; intros t; [by eexists|].
  cbn [normalize_fields]. rewrite normalize_field_direct; [apply IH|].
  intros Hm. apply Hk. unfold target. cbn [fst]. by rewrite Hm.
Qed.

Lemma ensure_category_lookup t key v :
  t !! key = Some v -> ensure_category t !! key = Some v.
Proof.
  intros H. unfold ensure_category.
  destruct (t !! "Category") eqn:Hc; [done|].
  destruct (t !! "Task Name"); [|done].
  rewrite lookup_insert_ne; [done|]. intros <-. congruence.
Qed.

Lemma ensure_category_other t key :
  key ≠ "Category" -> ensure_category t !! key = t !! key.
Proof.
  intros Hne. unfold ensure_category.
  destruct (t !! "Category"); [done|].
  destruct (t !! "Task Name"); [|done].
  by rewrite lookup_insert_ne.
Qed.

(** Every name of a normalised row is the target of some field. *)
Lemma normalize_fields_names t t' r :
  (forall key, is_Some (t !! key) -> exists k0, target k0 = key) ->
  normalize_fields t r = Some t' ->
  forall key, is_Some (t' !! key) -> exists k0, target k0 = key.
Proof.
  revert t. induction r as [|[k v] r IH]; intros t Ht.
  - by intros [= <-].
  - cbn [normalize_fields]. destruct (normalize_field t (k, v)) as [t1|] eqn:H1; [|done].
    apply IH. intros key Hkey.
    destruct (decide (target k = key)) as [<-|Hne]; [by eexists|].
    apply Ht. by rewrite <- (proj2 (normalize_field_writes _ _ _ _ H1) key Hne).
Qed.

(** The table renames "Task Name", so the normalised fields never hold
    it and the fallback of lines 252-253 has nothing to copy. *)
Lemma task_name_never_kept r t :
  normalize_fields ∅ r = Some t -> t !! "Task Name" = None /\ ensure_category t = t.
Proof.
  intros H.
  assert (Hn : t !! "Task Name" = None).
  { destruct (t !! "Task Name") eqn:E; [|done].
    destruct (normalize_fields_names ∅ t r) with (key := "Task Name") as [k0 Hk0]; eauto.
    - intros key. rewrite lookup_empty. by intros [? ?].
    - by apply (target_not_renamed "Task Name" "Category") in Hk0. }
  split; [done|]. unfold ensure_category. rewrite Hn. by destruct (t !! "Category").
Qed.

Lemma normalize_fields_keeps t t' r key :
  normalize_fields t r = Some t' -> is_Some (t !! key) -> is_Some (t' !! key).
Proof.
  revert t. induction r as [|[k v] r IH]; intros t.
  - by intros [= <-].
  - cbn [normalize_fields]. destruct (normalize_field t (k, v)) as [t1|] eqn:H1; [|done].
    intros H Hkey. apply (IH _ H). by apply (normalize_field_keeps _ _ _ _ _ H1).
Qed.

Lemma normalize_fields_stored t t' r k v :
  normalize_fields t r = Some t' -> (k, v) ∈ r -> is_Some (t' !! target k).
Proof.
  revert t. induction r as [|[k0 v0] r IH]; intros t; [by intros _ ?%elem_of_nil|].
  cbn [normalize_fields]. destruct (normalize_field t (k0, v0)) as [t1|] eqn:H1; [|done].
  intros H [[= -> ->]|Hin]%elem_of_cons.
  - apply (normalize_fields_keeps _ _ _ _ H).
    by apply (normalize_field_writes _ _ _ _ H1).
  - by apply (IH _ H).
Qed.

Lemma normalize_row_total r :
  Forall (fun kv => target kv.1 ≠ "Notes/Comments") r -> is_Some (normalize_row r).
Proof.
  intros Hr. unfold normalize_row.
  destruct (normalize_fields_total ∅ r Hr) as [t ->]. by eexists.
Qed.

Lemma lookup_normalized r key v :
  normalize_row r ≫= lookup key = Some v ->
  exists t, normalize_row r = Some t /\ t !! key = Some v.
Proof. destruct (normalize_row r) as [t|]; [eauto|discriminate]. Qed.

(** Two fields of a row that are stored under Notes/Comments, nothing
    else in the row being stored there: the first one sets the entry, and
    the entry after the row is whatever the second one makes of it. *)
Lemma notes_two_fields pre mid post k1 k2 v1 v2 w :
  Forall (fun kv => target kv.1 ≠ "Notes/Comments") pre ->
  Forall (fun kv => target kv.1 ≠ "Notes/Comments") mid ->
  Forall (fun kv => target kv.1 ≠ "Notes/Comments") post ->
  mapped k1 = Some "Notes/Comments" ->
  (forall t, t !! "Notes/Comments" = Some v1 ->
     normalize_field t (k2, v2) = Some (<["Notes/Comments" := w]> t)) ->
  exists t,
    normalize_row (pre ++ (k1, v1) :: mid ++ (k2, v2) :: post)%list = Some t /\
    t !! "Notes/Comments" = Some w.
Proof.
  intros Hpre Hmid Hpost Hk1 Hstep.
  destruct (normalize_fields_total ∅ pre Hpre) as [t0 H0].
  pose proof (normalize_fields_frame _ _ _ _ Hpre H0) as Hn0. rewrite lookup_empty in Hn0.
  pose proof (normalize_field_fresh t0 k1 v1 Hn0) as H1.
  unfold target in H1. rewrite Hk1 in H1. cbn [default from_option id] in H1.
  destruct (normalize_fields_total (<["Notes/Comments" := v1]> t0) mid Hmid) as [t2 H2].
  pose proof (normalize_fields_frame _ _ _ _ Hmid H2) as Hn2. rewrite lookup_insert_eq in Hn2.
  pose proof (Hstep t2 Hn2) as H3.
  destruct (normalize_fields_total (<["Notes/Comments" := w]> t2) post Hpost) as [t4 H4].
  pose proof (normalize_fields_frame _ _ _ _ Hpost H4) as Hn4. rewrite lookup_insert_eq in Hn4.
  exists (ensure_category t4). split; [|by apply ensure_category_lookup].
  unfold normalize_row.
  rewrite normalize_fields_app, H0. cbn [mbind option_bind normalize_fields].
  rewrite H1, normalize_fields_app, H2. cbn [mbind option_bind normalize_fields].
  by rewrite H3, H4.
Qed.

(** C3, as the code has it.  A field translated to Notes/Comments whose
    value is not empty, met when the task already has a text (a string,
    not [None]) under Notes/Comments, is appended to it after " | ".  So
    when two fields of a row are translated to Notes/Comments, the earlier
    one a text, the later one a text that is not empty, and nothing else
    in the row is stored under that name, the entry of the task is the
    earlier text, then " | ", then the later text. *)
Theorem notes_concatenated k2 (s2 : string) :
  mapped k2 = Some "Notes/Comments" -> s2 ≠ "" ->
  (forall t (old : string), t !! "Notes/Comments" = Some (PStr old) ->
     normalize_field t (k2, PStr s2)
     = Some (<["Notes/Comments" := PStr (old ++ " | " ++ s2)]> t)) /\
  (forall pre mid post k1 (s1 : string),
     mapped k1 = Some "Notes/Comments" ->
     Forall (fun kv => target kv.1 ≠ "Notes/Comments") (pre ++ mid ++ post)%list ->
     exists t,
       normalize_row (pre ++ (k1, PStr s1) :: mid ++ (k2, PStr s2) :: post)%list = Some t /\
       t !! "Notes/Comments" = Some (PStr (s1 ++ " | " ++ s2))).
Proof.
  intros Hk2 Hs2. split.
  - intros t old Ht. by apply normalize_field_append.
  - intros pre mid post k1 s1 Hk1 H.
    apply Forall_app in H as [Hpre H]. apply Forall_app in H as [Hmid Hpost].
    apply notes_two_fields; try done.
    intros t Ht. by apply normalize_field_append.
Qed.

(** C10.  A field translated to Notes/Comments whose value is empty is
    stored as it is, over whatever the task holds under that name.  So
    when two fields of a row are translated to Notes/Comments, the later
    one empty, and nothing else in the row is stored under that name, the
    entry of the task is that empty value: the earlier value is lost, not
    kept and not joined. *)
Theorem notes_overwritten_by_empty k2 v2 :
  mapped k2 = Some "Notes/Comments" -> truthy v2 = false ->
  (forall t, normalize_field t (k2, v2) = Some (<["Notes/Comments" := v2]> t)) /\
  (forall pre mid post k1 v1,
     mapped k1 = Some "Notes/Comments" ->
     Forall (fun kv => target kv.1 ≠ "Notes/Comments") (pre ++ mid ++ post)%list ->
     exists t,
       normalize_row (pre ++ (k1, v1) :: mid ++ (k2, v2) :: post)%list = Some t /\
       t !! "Notes/Comments" = Some v2).
Proof.
  intros Hk2 Hv2.
  assert (Hstep : forall t,
            normalize_field t (k2, v2) = Some (<["Notes/Comments" := v2]> t)).
  { intros t. rewrite (normalize_field_falsy t k2 v2 Hv2). unfold target. by rewrite Hk2. }
  split; [exact Hstep|].
  intros pre mid post k1 v1 Hk1 H.
  apply Forall_app in H as [Hpre H]. apply Forall_app in H as [Hmid Hpost].
  apply notes_two_fields; try done.
Qed.


End Normaliser.

(** ** Reading the files *)

Section Reader.

Local Open Scope list_scope.

Implicit Types (t : task) (r : row) (st : reader_state) (f : csv_file).

Lemma category_falsy t :
  truthy (get t "Category" PNone) = false <->
  t !! "Category" = None \/ t !! "Category" = Some PNone \/
  t !! "Category" = Some (PStr "").
Proof.
  unfold get. destruct (t !! "Category") as [[|s]|]; cbn.
  - intuition congruence.
  - destruct (String.eqb_spec s ""); cbn; intuition congruence.
  - intuition congruence.
Qed.

Lemma read_row_skip st r t :
  normalize_row r = Some t -> truthy (get t "Category" PNone) = false ->
  read_row st r = Some st.
Proof. intros Hr Hc. unfold read_row. by rewrite Hr, Hc. Qed.

Lemma read_row_keep st r t :
  normalize_row r = Some t -> truthy (get t "Category" PNone) = true ->
  read_row st r =
  Some {| all_tasks := all_tasks st ++ [t];
          unique_categories := unique_categories st ∪ {[ get t "Category" PNone ]};
          reader_out :=
            if bool_decide (get t "Category" PNone ∈ unique_categories st)
            then reader_out st ++ [DuplicateWarning (get t "Category" PNone)]
            else reader_out st |}.
Proof. intros Hr Hc. unfold read_row. by rewrite Hr, Hc. Qed.

Lemma read_rows_app st rs1 rs2 :
  read_rows st (rs1 ++ rs2) =
  if (read_rows st rs1).2 then read_rows st rs1
  else read_rows (read_rows st rs1).1 rs2.
Proof.
  revert st. induction rs1 as [|r rs1 IH]; intros st; [done|].
  cbn [read_rows app]. destruct (read_row st r) as [st'|]; [apply IH|done].
Qed.

Lemma read_rows_skip st pre post r t :
  normalize_row r = Some t -> truthy (get t "Category" PNone) = false ->
  read_rows st (pre ++ r :: post) = read_rows st (pre ++ post).
Proof.
  intros Hr Hc. rewrite !read_rows_app. cbn [read_rows].
  by rewrite (read_row_skip _ r t Hr Hc).
Qed.

Lemma read_files_skip before after path pre post err r t :
  normalize_row r = Some t -> truthy (get t "Category" PNone) = false ->
  read_files (before ++ mkfile path (pre ++ r :: post) err :: after)
  = read_files (before ++ mkfile path (pre ++ post) err :: after).
Proof.
  intros Hr Hc. unfold read_files. rewrite !foldl_app. cbn [foldl].
  f_equal. unfold read_file. cbn [rows read_error file_path].
  by rewrite (read_rows_skip _ pre post r t Hr Hc).
Qed.

(** Files whose rows all normalise keep their tasks in file-then-row order. *)
Lemma read_rows_kept st rs :
  Forall (fun r => is_Some (normalize_row r)) rs ->
  (read_rows st rs).2 = false /\
  all_tasks (read_rows st rs).1 = all_tasks st ++ flat_map kept rs.
Proof.
  intros Hrs. revert st. induction Hrs as [|r rs [t Hr] _ IH]; intros st.
  - cbn. by rewrite app_nil_r.
  - cbn [read_rows flat_map]. unfold kept at 1. unfold read_row. rewrite Hr.
    destruct (truthy (get t "Category" PNone)); cbn [negb].
    + destruct (IH {| all_tasks := all_tasks st ++ [t];
                      unique_categories := unique_categories st ∪ {[ get t "Category" PNone ]};
                      reader_out :=
                        if bool_decide (get t "Category" PNone ∈ unique_categories st)
                        then reader_out st ++ [DuplicateWarning (get t "Category" PNone)]
                        else reader_out st |}) as [-> ->].
      cbn [all_tasks]. by rewrite <- app_assoc.
    + apply IH.
Qed.

Lemma read_file_kept st f :
  Forall (fun r => is_Some (normalize_row r)) (rows f) ->
  all_tasks (read_file st f) = all_tasks st ++ flat_map kept (rows f).
Proof.
  intros Hf. unfold read_file.
  destruct (read_rows_kept st (rows f) Hf) as [Hflag Htasks].
  destruct (read_rows st (rows f)) as [st' raised]. cbn [fst snd] in *. subst raised.
  by destruct (read_error f).
Qed.

Lemma foldl_read_file_kept st files :
  Forall (fun f => Forall (fun r => is_Some (normalize_row r)) (rows f)) files ->
  all_tasks (foldl read_file st files)
  = all_tasks st ++ flat_map kept (flat_map rows files).
Proof.
  intros Hfs. revert st. induction Hfs as [|f files Hf _ IH]; intros st.
  - cbn. by rewrite app_nil_r.
  - cbn [foldl flat_map]. rewrite IH, (read_file_kept st f Hf).
    by rewrite flat_map_app, app_assoc.
Qed.

End Reader.

(** ** The sync driver *)

Section Sync.

Local Open Scope list_scope.

Context {World : Type}.
Variable post_page : World -> properties -> World * bool.
Variable patch_page : World -> string -> properties -> World * bool.

Local Abbreviation process_task := (process_task post_page patch_page).
Local Abbreviation upload := (upload post_page patch_page).
Local Abbreviation process_csv_files := (process_csv_files post_page patch_page).

Implicit Types (t : task) (st : sync_state (World:=World)) (existing : index).

Lemma calls_process_task mode existing st t :
  calls (process_task mode existing st t) = calls st ++ dispatch mode existing t.
Proof.
  unfold process_task, dispatch, update_task, create_task.
  destruct (lookup_index existing _) as [page|].
  - destruct (mode_in mode ["update"; "both"]); [|by rewrite app_nil_r].
    by destruct (patch_page _ _ _) as [w' []].
  - destruct (mode_in mode ["create"; "both"]); [|by rewrite app_nil_r].
    by destruct (post_page _ _) as [w' []].
Qed.

Lemma calls_upload mode existing st tasks :
  calls (upload mode existing st tasks)
  = calls st ++ flat_map (dispatch mode existing) tasks.
Proof.
  revert st. induction tasks as [|t tasks IH]; intros st.
  - cbn. by rewrite app_nil_r.
  - unfold upload in *. cbn [foldl flat_map].
    by rewrite IH, calls_process_task, app_assoc.
Qed.

Lemma total_process_task mode existing st t :
  total (counters (process_task mode existing st t)) = total (counters st).
Proof.
  unfold process_task, update_task, create_task.
  destruct (lookup_index existing _) as [page|].
  - destruct (mode_in mode ["update"; "both"]); [|done].
    by destruct (patch_page _ _ _) as [w' []].
  - destruct (mode_in mode ["create"; "both"]); [|done].
    by destruct (post_page _ _) as [w' []].
Qed.

Lemma total_upload mode existing st tasks :
  total (counters (upload mode existing st tasks)) = total (counters st).
Proof.
  revert st. induction tasks as [|t tasks IH]; intros st; [done|].
  unfold upload in *. cbn [foldl]. by rewrite IH, total_process_task.
Qed.

(** The reported total is the number of tasks kept by the reader. *)
Lemma total_process_csv_files files mode existing w :
  total (counters (process_csv_files files mode existing w))
  = length (all_tasks (read_files files)).
Proof. unfold process_csv_files. by rewrite total_upload. Qed.

Lemma calls_process_csv_files files mode existing w :
  calls (process_csv_files files mode existing w)
  = flat_map (dispatch mode existing) (all_tasks (read_files files)).
Proof. unfold process_csv_files. by rewrite calls_upload. Qed.

Lemma dispatch_create_only existing t :
  Forall (fun c => is_update c = false) (dispatch "create" existing t).
Proof.
  unfold dispatch. destruct (lookup_index existing _); cbn; by repeat constructor.
Qed.

Lemma dispatch_update_only existing t :
  Forall (fun c => is_create c = false) (dispatch "update" existing t).
Proof.
  unfold dispatch. destruct (lookup_index existing _); cbn; by repeat constructor.
Qed.

Lemma Forall_flat_map_intro {A B} (P : B -> Prop) (f : A -> list B) l :
  (forall a, Forall P (f a)) -> Forall P (flat_map f l).
Proof.
  intros Hf. induction l as [|a l IH]; cbn; [constructor|].
  apply Forall_app. split; [apply Hf|apply IH].
Qed.

(** C5.  A row whose normalised Category is missing or empty is passed
    over by the reader without any trace: the tasks kept, the set of
    categories and the output are as before, no exception is raised, and
    the whole run, with its total and its error count, is the run of the
    same files without that row. *)
Theorem empty_category_dropped r t :
  normalize_row r = Some t ->
  t !! "Category" = None \/ t !! "Category" = Some PNone \/
    t !! "Category" = Some (PStr "") ->
  (forall rst, read_row rst r = Some rst) /\
  (forall before path pre post err after mode existing w,
     process_csv_files (before ++ mkfile path (pre ++ r :: post) err :: after)
                       mode existing w
     = process_csv_files (before ++ mkfile path (pre ++ post) err :: after)
                         mode existing w) /\
  (forall before path pre post err after mode existing w,
     total (counters (process_csv_files
              (before ++ mkfile path (pre ++ r :: post) err :: after) mode existing w))
     = length (all_tasks (read_files (before ++ mkfile path (pre ++ post) err :: after)))).
Proof.
  intros Hr Hc%category_falsy. repeat split.
  - intros rst. by apply (read_row_skip rst r t).
  - intros. unfold process_csv_files.
    by rewrite (read_files_skip before after path pre post err r t Hr Hc).
  - intros. rewrite total_process_csv_files.
    by rewrite (read_files_skip before after path pre post err r t Hr Hc).
Qed.

(** C2.  In mode "create" no update request is ever sent, and a task
    whose Category is in the index leaves the run as it was; in mode
    "update" no create request is ever sent, and a task whose Category is
    not in the index leaves the run as it was.  Neither case counts as an
    error. *)
Theorem mode_gates existing :
  (forall files w,
     Forall (fun c => is_update c = false)
            (calls (process_csv_files files "create" existing w))) /\
  (forall st t page, lookup_index existing (get t "Category" PNone) = Some page ->
     process_task "create" existing st t = st) /\
  (forall files w,
     Forall (fun c => is_create c = false)
            (calls (process_csv_files files "update" existing w))) /\
  (forall st t, lookup_index existing (get t "Category" PNone) = None ->
     process_task "update" existing st t = st).
Proof.
  repeat split.
  - intros files w. rewrite calls_process_csv_files.
    apply Forall_flat_map_intro, dispatch_create_only.
  - intros st t page H. unfold process_task. by rewrite H.
  - intros files w. rewrite calls_process_csv_files.
    apply Forall_flat_map_intro, dispatch_update_only.
  - intros st t H. unfold process_task. by rewrite H.
Qed.

Lemma process_task_update_fails mode existing st t page :
  lookup_index existing (get t "Category" PNone) = Some page ->
  mode_in mode ["update"; "both"] = true ->
  (patch_page (world st) page (_convert_to_notion_properties t)).2 = false ->
  counters (process_task mode existing st t) = count_error (counters st).
Proof.
  unfold process_task, update_task. intros -> -> Hfail.
  destruct (patch_page _ _ _) as [w' ok]. cbn [snd] in Hfail. by subst ok.
Qed.

Lemma process_task_create_fails mode existing st t :
  lookup_index existing (get t "Category" PNone) = None ->
  mode_in mode ["create"; "both"] = true ->
  (post_page (world st) (_convert_to_notion_properties t)).2 = false ->
  counters (process_task mode existing st t) = count_error (counters st).
Proof.
  unfold process_task, create_task. intros -> -> Hfail.
  destruct (post_page _ _) as [w' ok]. cbn [snd] in Hfail. by subst ok.
Qed.

(** C6.  When the request sent for a task raises, the exception stays
    with that task: the error counter goes up by one, the created and
    updated counters and the total stay as they are, and the loop goes on
    with the tasks that follow, each of which still gets its request. *)
Theorem failed_call_counted mode existing st t :
  let st' := process_task mode existing st t in
  (forall page,
     lookup_index existing (get t "Category" PNone) = Some page ->
     mode_in mode ["update"; "both"] = true ->
     (patch_page (world st) page (_convert_to_notion_properties t)).2 = false ->
     errors (counters st') = errors (counters st) + 1 /\
     created (counters st') = created (counters st) /\
     updated (counters st') = updated (counters st) /\
     total (counters st') = total (counters st)) /\
  (lookup_index existing (get t "Category" PNone) = None ->
   mode_in mode ["create"; "both"] = true ->
   (post_page (world st) (_convert_to_notion_properties t)).2 = false ->
     errors (counters st') = errors (counters st) + 1 /\
     created (counters st') = created (counters st) /\
     updated (counters st') = updated (counters st) /\
     total (counters st') = total (counters st)) /\
  (forall rest,
     upload mode existing st (t :: rest) = upload mode existing st' rest /\
     calls (upload mode existing st (t :: rest))
     = calls st' ++ flat_map (dispatch mode existing) rest).
Proof.
  cbv zeta. split; [|split].
  - intros page Hidx Hmode Hfail.
    by rewrite (process_task_update_fails _ _ _ _ _ Hidx Hmode Hfail).
  - intros Hidx Hmode Hfail.
    by rewrite (process_task_create_fails _ _ _ _ Hidx Hmode Hfail).
  - intros rest.
    change (upload mode existing st (t :: rest))
      with (upload mode existing (process_task mode existing st t) rest).
    by rewrite calls_upload.
Qed.


End Sync.

(** ** The remote index builder *)

Section Fetch.

Local Open Scope list_scope.

Context {World : Type}.
Variable post_query : World -> option string -> World * option query_response.

Local Abbreviation fetch_loop := (fetch_loop post_query).
Local Abbreviation served := (served post_query).

Implicit Types (p : page) (idx : index) (data : query_response).

Lemma register_titled idx p name :
  page_title p = Some name -> register idx p = <[name := page_id p]> idx.
Proof. intros H. unfold register. by rewrite H. Qed.

Lemma register_untitled idx p :
  page_title p = None -> register idx p = idx.
Proof. intros H. unfold register. by rewrite H. Qed.

(** A name of the index leads to the last record that carries it. *)
Lemma lookup_foldl_register idx ps name :
  foldl register idx ps !! name =
  match last (List.filter (titled name) ps) with
  | Some p => Some (page_id p)
  | None => idx !! name
  end.
Proof.
  revert idx. induction ps as [|p ps IH]; intros idx; [done|].
  cbn [foldl List.filter]. rewrite IH. unfold titled at 2.
  case_bool_decide as Hp.
  - rewrite last_cons. destruct (last (List.filter (titled name) ps)); [done|].
    rewrite (register_titled _ _ _ Hp). by rewrite lookup_insert_eq.
  - destruct (last (List.filter (titled name) ps)); [done|].
    unfold register. destruct (page_title p) as [n|] eqn:Hn; [|done].
    rewrite lookup_insert_ne; [done|]. intros ->. by apply Hp.
Qed.

Lemma payload_token c : c ≠ "" -> payload (Some c) = Some c.
Proof. intros Hc. unfold payload. apply String.eqb_neq in Hc. by rewrite Hc. Qed.

Lemma fetch_loop_served pages final w_end :
  Forall (fun data => has_more data = true) pages ->
  has_more final = false ->
  forall w start_cursor idx sent fuel,
    served w start_cursor (pages ++ [final]) w_end ->
    length pages < fuel ->
    fetch_loop fuel w start_cursor idx sent =
    mkfetch w_end
            (foldl register idx (flat_map results (pages ++ [final])))
            (sent ++ payload start_cursor
                  :: map (fun data => payload (next_cursor data)) pages)
            Completed.
Proof.
  intros Hpages Hfinal. induction Hpages as [|data pages Hmore _ IH];
    intros w start_cursor idx sent fuel Hserved Hfuel.
  - destruct fuel as [|fuel]; [cbn in Hfuel; lia|].
    cbn [app served] in Hserved. destruct Hserved as (w' & Hq & ->).
    cbn [fetch_loop]. rewrite Hq, Hfinal. cbn. by rewrite app_nil_r.
  - destruct fuel as [|fuel]; [cbn in Hfuel; lia|].
    cbn [app served] in Hserved. destruct Hserved as (w' & Hq & Hserved).
    cbn [fetch_loop]. rewrite Hq, Hmore.
    rewrite (IH w' (next_cursor data) _ _ fuel Hserved) by (cbn in Hfuel; lia).
    cbn [app flat_map map]. rewrite foldl_app. by rewrite <- app_assoc.
Qed.

(** C4.  Let the service hand out the collection as the pages [pages]
    followed by [final], every page but the last announcing more: the
    first answers a request without cursor, each next one the request that
    carries the cursor of the page before it.  Then the index builder,
    allowed that many requests, sends exactly these requests and stops
    after the page that announces no more; its index is the accumulation,
    in order, over the records of all the pages; a record with a first
    title segment that is present and not empty puts its identifier under
    that title, any other record changes nothing; so a title leads to the
    last record that carries it. *)
Theorem index_built_from_all_pages pages final w w_end :
  served w None (pages ++ [final]) w_end ->
  Forall (fun data => has_more data = true) pages ->
  has_more final = false ->
  let records := flat_map results (pages ++ [final]) in
  (forall fuel, length pages < fuel ->
     _fetch_existing_tasks post_query fuel w =
     mkfetch w_end (foldl register ∅ records)
             (None :: map (fun data => payload (next_cursor data)) pages)
             Completed) /\
  (forall c, c ≠ "" -> payload (Some c) = Some c) /\
  (forall idx p name, page_title p = Some name ->
     register idx p = <[name := page_id p]> idx) /\
  (forall idx p, page_title p = None -> register idx p = idx) /\
  (forall name,
     foldl register ∅ records !! name
     = page_id <$> last (List.filter (titled name) records)).
Proof.
  intros Hserved Hpages Hfinal records. repeat split.
  - intros fuel Hfuel. unfold _fetch_existing_tasks.
    by rewrite (fetch_loop_served pages final w_end Hpages Hfinal w None ∅ [] fuel).
  - apply payload_token.
  - apply register_titled.
  - apply register_untitled.
  - intros name. rewrite lookup_foldl_register.
    by destruct (last (List.filter (titled name) records)).
Qed.

End Fetch.

(** * Worked examples *)

Local Open Scope list_scope.

(** ** The properties at concrete inputs *)

Lemma status_priority_defaults_witness :
  let bare : task := {[ "Category" := PStr "Setup DB" ]} in
  let blank : task :=
    {[ "Category" := PStr "Setup DB"; "Status" := PStr ""; "Priority" := PStr "" ]} in
  bare !! "Status" = None /\ bare !! "Priority" = None /\
  blank !! "Status" = Some (PStr "") /\ blank !! "Priority" = Some (PStr "") /\
  _convert_to_notion_properties bare !! "Status" = Some (Select (PStr "Not Started")) /\
  _convert_to_notion_properties bare !! "Priority" = Some (Select (PStr "Normal")) /\
  _convert_to_notion_properties blank !! "Status" = None /\
  _convert_to_notion_properties blank !! "Priority" = None.
Proof.
  intros bare blank.
  destruct (status_priority_defaults bare) as (Hs & _ & Hp & _).
  destruct (status_priority_defaults blank) as (_ & Hs' & _ & Hp').
  split; [reflexivity|]. split; [reflexivity|].
  split; [reflexivity|]. split; [reflexivity|].
  split; [apply Hs; reflexivity|]. split; [apply Hp; reflexivity|].
  split; [apply Hs'; reflexivity|apply Hp'; reflexivity].
Defined.


Example due_date_padded_run :
  _convert_to_notion_properties
    {[ "Category" := PStr "Setup DB";
       "Due Date" := PStr (pad2 3 ++ "/" ++ pad2 15 ++ "/" ++ pad4 2025)%string ]}
    !! "Due Date"
  = Some (DateStart (PStr (pad4 2025 ++ "-" ++ pad2 3 ++ "-" ++ pad2 15)%string)).
Proof. vm_compute. reflexivity. Qed.


Lemma notes_concatenated_witness :
  let t0 : task := {[ "Notes/Comments" := PStr "Add X" ]} in
  mapped "Acceptance Criteria" = Some "Notes/Comments" /\
  "Must pass Y" ≠ "" /\
  t0 !! "Notes/Comments" = Some (PStr "Add X") /\
  normalize_field t0 ("Acceptance Criteria", PStr "Must pass Y")
    = Some (<["Notes/Comments" := PStr "Add X | Must pass Y"]> t0) /\
  mapped "Enhancements" = Some "Notes/Comments" /\
  Forall (fun kv : string * pyval => target kv.1 ≠ "Notes/Comments")
         ([("Task Name", PStr "Setup DB")] ++ [] ++ [("Status", PStr "Open")]) /\
  exists t,
    normalize_row [("Task Name", PStr "Setup DB"); ("Enhancements", PStr "Add X");
                   ("Acceptance Criteria", PStr "Must pass Y"); ("Status", PStr "Open")]
      = Some t /\
    t !! "Notes/Comments" = Some (PStr "Add X | Must pass Y").
Proof.
  intros t0.
  assert (Hothers : Forall (fun kv : string * pyval => target kv.1 ≠ "Notes/Comments")
                      ([("Task Name", PStr "Setup DB")] ++ [] ++ [("Status", PStr "Open")])).
  { repeat constructor; vm_compute; discriminate. }
  destruct (notes_concatenated "Acceptance Criteria" "Must pass Y" eq_refl
              ltac:(discriminate)) as [Hstep Hrow].
  split; [reflexivity|]. split; [discriminate|]. split; [reflexivity|].
  split; [exact (Hstep t0 "Add X" eq_refl)|].
  split; [reflexivity|]. split; [exact Hothers|].
  exact (Hrow [("Task Name", PStr "Setup DB")] [] [("Status", PStr "Open")]
              "Enhancements" "Add X" eq_refl Hothers).
Defined.

(** An empty later value is not appended: it replaces the earlier one. *)
Lemma notes_not_concatenated_with_empty :
  let r : row := [("Enhancements", PStr "Add X"); ("Acceptance Criteria", PStr "")] in
  normalize_row r ≫= lookup "Notes/Comments" = Some (PStr "") /\
  normalize_row r ≫= lookup "Notes/Comments" ≠ Some (PStr ("Add X" ++ " | " ++ "")).
Proof. split; [vm_compute; reflexivity|vm_compute; discriminate]. Qed.

Lemma notes_overwritten_by_empty_witness :
  let t0 : task := {[ "Notes/Comments" := PStr "Add X" ]} in
  mapped "Acceptance Criteria" = Some "Notes/Comments" /\
  truthy (PStr "") = false /\
  normalize_field t0 ("Acceptance Criteria", PStr "")
    = Some (<["Notes/Comments" := PStr ""]> t0) /\
  mapped "Enhancements" = Some "Notes/Comments" /\
  Forall (fun kv : string * pyval => target kv.1 ≠ "Notes/Comments")
         ([("Task Name", PStr "Setup DB")] ++ [] ++ [("Status", PStr "Open")]) /\
  exists t,
    normalize_row [("Task Name", PStr "Setup DB"); ("Enhancements", PStr "Add X");
                   ("Acceptance Criteria", PStr ""); ("Status", PStr "Open")]
      = Some t /\
    t !! "Notes/Comments" = Some (PStr "").
Proof.
  intros t0.
  assert (Hothers : Forall (fun kv : string * pyval => target kv.1 ≠ "Notes/Comments")
                      ([("Task Name", PStr "Setup DB")] ++ [] ++ [("Status", PStr "Open")])).
  { repeat constructor; vm_compute; discriminate. }
  destruct (notes_overwritten_by_empty "Acceptance Criteria" (PStr "") eq_refl eq_refl)
    as [Hstep Hrow].
  split; [reflexivity|]. split; [reflexivity|]. split; [exact (Hstep t0)|].
  split; [reflexivity|]. split; [exact Hothers|].
  exact (Hrow [("Task Name", PStr "Setup DB")] [] [("Status", PStr "Open")]
              "Enhancements" (PStr "Add X") eq_refl Hothers).
Defined.



Lemma empty_category_dropped_witness :
  let r : row := [("Task Name", PStr ""); ("Description", PStr "untitled")] in
  let r1 : row := [("Task Name", PStr "Setup DB")] in
  let r2 : row := [("Task Name", PStr "New Task")] in
  exists t,
    normalize_row r = Some t /\
    t !! "Category" = Some (PStr "") /\
    read_row (mkreader [] ∅ []) r = Some (mkreader [] ∅ []) /\
    process_csv_files scripted_post scripted_patch
      ([] ++ mkfile "tasks.csv" ([r1] ++ r :: [r2]) false :: []) "both" ∅ []
    = process_csv_files scripted_post scripted_patch
        ([] ++ mkfile "tasks.csv" ([r1] ++ [r2]) false :: []) "both" ∅ [] /\
    total (counters (process_csv_files scripted_post scripted_patch
             ([] ++ mkfile "tasks.csv" ([r1] ++ r :: [r2]) false :: []) "both" ∅ [])) = 2.
Proof.
  intros r r1 r2.
  destruct (lookup_normalized r "Category" (PStr "")) as (t & Ht & Hc);
    [vm_compute; reflexivity|].
  exists t.
  destruct (empty_category_dropped scripted_post scripted_patch r t Ht
              (or_intror (or_intror Hc))) as (Hrow & Hrun & Htotal).
  split; [exact Ht|]. split; [exact Hc|]. split; [apply Hrow|].
  split; [apply Hrun|].
  rewrite (Htotal [] "tasks.csv" [r1] [r2] false [] "both" ∅ []).
  vm_compute. reflexivity.
Defined.

Lemma mode_gates_witness :
  let existing : index := {[ "Setup DB" := "page_1" ]} in
  let known : task := {[ "Category" := PStr "Setup DB" ]} in
  let fresh : task := {[ "Category" := PStr "New Task" ]} in
  let st : sync_state := mksync ([] : list bool) (mktally 2 0 0 0) [] [] in
  let files := [mkfile "tasks.csv" [[("Task Name", PStr "Setup DB")];
                                    [("Task Name", PStr "New Task")]] false] in
  lookup_index existing (get known "Category" PNone) = Some "page_1" /\
  process_task scripted_post scripted_patch "create" existing st known = st /\
  lookup_index existing (get fresh "Category" PNone) = None /\
  process_task scripted_post scripted_patch "update" existing st fresh = st /\
  Forall (fun c => is_update c = false)
         (calls (process_csv_files scripted_post scripted_patch files "create" existing [])) /\
  Forall (fun c => is_create c = false)
         (calls (process_csv_files scripted_post scripted_patch files "update" existing [])).
Proof.
  intros existing known fresh st files.
  destruct (mode_gates scripted_post scripted_patch existing)
    as (Hcreate & Hskip_known & Hupdate & Hskip_fresh).
  assert (Hknown : lookup_index existing (get known "Category" PNone) = Some "page_1")
    by reflexivity.
  assert (Hfresh : lookup_index existing (get fresh "Category" PNone) = None)
    by reflexivity.
  split; [exact Hknown|]. split; [exact (Hskip_known st known "page_1" Hknown)|].
  split; [exact Hfresh|]. split; [exact (Hskip_fresh st fresh Hfresh)|].
  split; [apply Hcreate|apply Hupdate].
Defined.

Lemma failed_call_counted_witness :
  let existing : index := {[ "Setup DB" := "page_1" ]} in
  let fresh : task := {[ "Category" := PStr "New Task" ]} in
  let known : task := {[ "Category" := PStr "Setup DB" ]} in
  let st : sync_state := mksync [false] (mktally 2 0 0 0) [] [] in
  let st1 := process_task scripted_post scripted_patch "both" existing st fresh in
  let st2 := process_task scripted_post scripted_patch "both" existing st known in
  (lookup_index existing (get fresh "Category" PNone) = None /\
   mode_in "both" ["create"; "both"] = true /\
   (scripted_post (world st) (_convert_to_notion_properties fresh)).2 = false /\
   errors (counters st1) = errors (counters st) + 1 /\
   created (counters st1) = created (counters st) /\
   updated (counters st1) = updated (counters st) /\
   total (counters st1) = total (counters st)) /\
  (lookup_index existing (get known "Category" PNone) = Some "page_1" /\
   mode_in "both" ["update"; "both"] = true /\
   (scripted_patch (world st) "page_1" (_convert_to_notion_properties known)).2 = false /\
   errors (counters st2) = errors (counters st) + 1 /\
   created (counters st2) = created (counters st) /\
   updated (counters st2) = updated (counters st) /\
   total (counters st2) = total (counters st)) /\
  upload scripted_post scripted_patch "both" existing st [fresh; known]
  = upload scripted_post scripted_patch "both" existing st1 [known] /\
  calls (upload scripted_post scripted_patch "both" existing st [fresh; known])
  = calls st1 ++ flat_map (dispatch "both" existing) [known].
Proof.
  intros existing fresh known st st1 st2.
  destruct (failed_call_counted scripted_post scripted_patch "both" existing st fresh)
    as (_ & Hcreate & Hnext).
  destruct (failed_call_counted scripted_post scripted_patch "both" existing st known)
    as (Hupdate & _ & _).
  split; [|split].
  - split; [reflexivity|]. split; [reflexivity|]. split; [reflexivity|].
    apply Hcreate; reflexivity.
  - split; [reflexivity|]. split; [reflexivity|]. split; [reflexivity|].
    apply (Hupdate "page_1"); reflexivity.
  - apply (Hnext [known]).
Defined.


Lemma index_built_from_all_pages_witness :
  let titled_page (id name : string) : page :=
    {| page_id := id;
       page_props := Some {| Category := Some {| title :=
         Some [ {| text := Some {| content := Some name |} |} ] |} |} |} in
  let untitled : page :=
    {| page_id := "page_3";
       page_props := Some {| Category := Some {| title := Some [] |} |} |} in
  let first : query_response :=
    {| results := [titled_page "page_1" "Setup DB"]; has_more := true;
       next_cursor := Some "cursor-1" |} in
  let final : query_response :=
    {| results := [untitled; titled_page "page_2" "New Task"]; has_more := false;
       next_cursor := None |} in
  let w := [Some first; Some final] in
  served scripted_query w None ([first] ++ [final]) [] /\
  Forall (fun data => has_more data = true) [first] /\
  has_more final = false /\
  length [first] < 2 /\
  _fetch_existing_tasks scripted_query 2 w =
  mkfetch [] (foldl register ∅ (flat_map results ([first] ++ [final])))
          [None; Some "cursor-1"] Completed /\
  foldl register ∅ (flat_map results ([first] ++ [final])) !! "New Task"
  = Some "page_2" /\
  "cursor-1" ≠ "" /\ payload (Some "cursor-1") = Some "cursor-1" /\
  page_title (titled_page "page_1" "Setup DB") = Some "Setup DB" /\
  register ∅ (titled_page "page_1" "Setup DB") = <["Setup DB" := "page_1"]> ∅ /\
  page_title untitled = None /\
  register ∅ untitled = ∅.
Proof.
  intros titled_page untitled first final w.
  assert (Hserved : served scripted_query w None ([first] ++ [final]) []).
  { exists [Some final]. split; [reflexivity|]. exists []. split; reflexivity. }
  assert (Hmore : Forall (fun data => has_more data = true) [first]).
  { repeat constructor. }
  assert (Hfuel : length [first] < 2) by (cbn; lia).
  destruct (index_built_from_all_pages scripted_query [first] final w [] Hserved Hmore eq_refl)
    as (Hrun & Hcursor & Hreg & Hskip & Hlast).
  split; [exact Hserved|]. split; [exact Hmore|]. split; [reflexivity|].
  split; [exact Hfuel|]. split; [exact (Hrun 2 Hfuel)|].
  split; [rewrite Hlast; reflexivity|].
  split; [discriminate|]. split; [apply Hcursor; discriminate|].
  split; [reflexivity|].
  split; [exact (Hreg ∅ (titled_page "page_1" "Setup DB") "Setup DB" eq_refl)|].
  split; [reflexivity|].
  exact (Hskip ∅ untitled eq_refl).
Defined.

(** ** Further runs of the code on concrete inputs *)

Example date_iso_unchanged :
  _convert_to_notion_properties {[ "Category" := PStr "Setup DB"; "Due Date" := PStr "2025-03-15" ]}
    !! "Due Date" = Some (DateStart (PStr "2025-03-15")).
Proof. vm_compute. reflexivity. Qed.

Example date_unparsable_dropped :
  _convert_to_notion_properties {[ "Category" := PStr "Setup DB"; "Due Date" := PStr "not a date" ]}
    !! "Due Date" = None.
Proof. vm_compute. reflexivity. Qed.

Example date_single_digits :
  strptime_mdY "3/5/2025" = Some (mkdate 2025 3 5) /\
  strftime_Ymd (mkdate 2025 3 5) = "2025-03-05".
Proof. split; reflexivity. Qed.

Example date_not_in_calendar :
  strptime_mdY "02/30/2025" = None /\ strptime_mdY "13/01/2025" = None /\
  strptime_mdY "02/29/2024" = Some (mkdate 2024 2 29) /\
  strptime_mdY "03/15/2025 " = None.
Proof. repeat split; reflexivity. Qed.

(** A short line whose header repeats a name can leave [None] under
    Notes/Comments before a later value arrives: the append raises. *)
Example append_to_none_raises :
  normalize_row [("Enhancements", PNone); ("Acceptance Criteria", PStr "Must pass Y")] = None.
Proof. reflexivity. Qed.

(** The row that raises ends its file: the rows before it are kept, the
    rows after it are not read, and the next file is read as usual. *)
Example raising_row_ends_file :
  let bad : row := [("Enhancements", PNone); ("Acceptance Criteria", PStr "Must pass Y")] in
  let rd := read_files
              [ mkfile "a.csv" [[("Task Name", PStr "One")]; bad; [("Task Name", PStr "Two")]] false;
                mkfile "b.csv" [[("Task Name", PStr "Three")]] false ] in
  map (fun t : task => t !! "Category") (all_tasks rd)
    = [Some (PStr "One"); Some (PStr "Three")] /\
  reader_out rd = [FileError "a.csv"].
Proof. split; vm_compute; reflexivity. Qed.

(** With the index {"Setup DB": "page_1"} and mode "both", the task
    "Setup DB" is sent as an update of page_1 and "New Task" as a create. *)
Example both_mode_run :
  let files := [mkfile "tasks.csv" [[("Task Name", PStr "Setup DB")];
                                    [("Task Name", PStr "New Task")]] false] in
  let run := process_csv_files scripted_post scripted_patch files "both"
               {[ "Setup DB" := "page_1" ]} [] in
  map call_page (calls run) = [Some "page_1"; None] /\
  map is_create (calls run) = [false; true] /\
  counters run = mktally 2 1 1 0 /\
  sync_out run = [UpdatedTask (PStr "Setup DB"); CreatedTask (PStr "New Task")].
Proof. repeat split; vm_compute; reflexivity. Qed.

(** The same Category in two files, absent from the index: a warning,
    two tasks, two create requests. *)
Example duplicate_run :
  let files := [mkfile "a.csv" [[("Task Name", PStr "Setup DB")]] false;
                mkfile "b.csv" [[("Task Name", PStr "Setup DB")]] false] in
  let run := process_csv_files scripted_post scripted_patch files "both" ∅ [] in
  map is_create (calls run) = [true; true] /\
  counters run = mktally 2 2 0 0 /\
  sync_out run = [DuplicateWarning (PStr "Setup DB");
                  CreatedTask (PStr "Setup DB"); CreatedTask (PStr "Setup DB")].
Proof. repeat split; vm_compute; reflexivity. Qed.

(** A service that always announces more pages keeps the builder asking. *)
Example endless_pages :
  let more : query_response := {| results := []; has_more := true; next_cursor := None |} in
  status (_fetch_existing_tasks (fun (w : unit) _ => (w, Some more)) 50 tt) = Unfinished.
Proof. vm_compute. reflexivity. Qed.

(** A request that raises on the second page ends the builder with the
    exception. *)
Example second_page_raises :
  let first : query_response :=
    {| results := []; has_more := true; next_cursor := Some "cursor-1" |} in
  let f := _fetch_existing_tasks scripted_query 5 [Some first; None] in
  status f = Raised /\ requests f = [None; Some "cursor-1"].
Proof. split; vm_compute; reflexivity. Qed.

(** * Further properties of the code *)

(** ** What a request carries *)

Section ConvertMore.

Local Open Scope string_scope.

Implicit Types (t : task) (p : properties) (v : pyval).

Ltac skip_other_fields :=
  repeat first
    [ rewrite lookup_set_if_truthy_ne by done
    | rewrite lookup_set_due_date_ne by done
    | rewrite lookup_insert_ne by done ].

Lemma set_if_truthy_is_Some key mk v p k :
  is_Some (set_if_truthy key mk v p !! k) -> k = key \/ is_Some (p !! k).
Proof.
  destruct (decide (key = k)) as [->|Hne]; [by left|].
  rewrite lookup_set_if_truthy_ne by done. by right.
Qed.

Lemma set_due_date_is_Some v p k :
  is_Some (set_due_date v p !! k) -> k = "Due Date" \/ is_Some (p !! k).
Proof.
  destruct (decide ("Due Date" = k)) as [<-|Hne]; [by left|].
  rewrite lookup_set_due_date_ne by done. by right.
Qed.

Lemma convert_category t :
  _convert_to_notion_properties t !! "Category"
  = Some (Title (get t "Category" (PStr ""))).
Proof.
  unfold _convert_to_notion_properties. cbv zeta.
  skip_other_fields. by rewrite lookup_insert_eq.
Qed.

(** X1.  The request always has the title, and has nothing but the eleven
    fields of the database: a column of the input that is none of them is
    never sent. *)
Theorem convert_fields_only t :
  is_Some (_convert_to_notion_properties t !! "Category") /\
  (forall key, is_Some (_convert_to_notion_properties t !! key) ->
     In key canonical_fields) /\
  (forall key, ~ In key canonical_fields ->
     _convert_to_notion_properties t !! key = None).
Proof.
  assert (Hdom : forall key, is_Some (_convert_to_notion_properties t !! key) ->
                   In key canonical_fields).
  { intros key. unfold _convert_to_notion_properties. cbv zeta. intros H.
    repeat (first [ apply set_if_truthy_is_Some in H
                  | apply set_due_date_is_Some in H ];
            destruct H as [->|H]; [cbn; tauto|]).
    destruct (decide ("Category" = key)) as [<-|Hne]; [cbn; tauto|].
    rewrite lookup_insert_ne, lookup_empty in H by done. by destruct H. }
  split; [rewrite convert_category; by eexists|].
  split; [exact Hdom|].
  intros key Hkey. destruct (_ !! key) eqn:E; [|done].
  exfalso. apply Hkey, Hdom. by rewrite E.
Qed.

Lemma convert_rich_text t key :
  In key rich_text_fields ->
  _convert_to_notion_properties t !! key =
  if truthy (get t key (PStr "")) then Some (RichText (get t key (PStr ""))) else None.
Proof.
  intros Hkey. cbn in Hkey.
  repeat (destruct Hkey as [<-|Hkey];
          [unfold _convert_to_notion_properties; cbv zeta;
           skip_other_fields; rewrite lookup_set_if_truthy_eq; skip_other_fields;
           by rewrite lookup_empty|]).
  contradiction.
Qed.

Lemma convert_effort t :
  _convert_to_notion_properties t !! "Estimated Effort" =
  if truthy (get t "Estimated Effort" (PStr ""))
  then Some (Select (get t "Estimated Effort" (PStr ""))) else None.
Proof.
  unfold _convert_to_notion_properties. cbv zeta.
  skip_other_fields. rewrite lookup_set_if_truthy_eq. skip_other_fields.
  by rewrite lookup_empty.
Qed.

(** X2.  A text field of the task (and its Estimated Effort) goes into the
    request with the very text it holds when that text is not empty, and
    is left out when the task has no such field, or [None], or the empty
    text. *)
Theorem convert_optional_fields t key :
  In key ("Estimated Effort" :: rich_text_fields) ->
  (forall s, t !! key = Some (PStr s) -> s ≠ "" ->
     _convert_to_notion_properties t !! key
     = Some ((if String.eqb key "Estimated Effort" then Select else RichText) (PStr s))) /\
  (t !! key = None \/ t !! key = Some PNone \/ t !! key = Some (PStr "") ->
     _convert_to_notion_properties t !! key = None).
Proof.
  intros [<-|Hkey].
  - rewrite convert_effort. unfold get. split.
    + intros s -> Hs. cbn. apply String.eqb_neq in Hs. by rewrite Hs.
    + by intros [->|[->| ->]].
  - rewrite (convert_rich_text t key Hkey). unfold get.
    assert (String.eqb key "Estimated Effort" = false) as ->.
    { cbn in Hkey. repeat (destruct Hkey as [<-|Hkey]; [reflexivity|]). contradiction. }
    split.
    + intros s -> Hs. cbn. apply String.eqb_neq in Hs. by rewrite Hs.
    + by intros [->|[->| ->]].
Qed.

(** X3.  The request is made of the eleven fields alone: two tasks that agree
    on them give the same request, whatever else they hold. *)
Theorem convert_reads_fields_only t1 t2 :
  (forall key, In key canonical_fields -> t1 !! key = t2 !! key) ->
  _convert_to_notion_properties t1 = _convert_to_notion_properties t2.
Proof.
  intros H. unfold _convert_to_notion_properties, get.
  rewrite !(H "Category"), !(H "Sprint"), !(H "Task Description"),
    !(H "Tools/APIs Required"), !(H "API/Tokens Required"), !(H "Status"),
    !(H "Priority"), !(H "Due Date"), !(H "Estimated Effort"),
    !(H "Dependencies"), !(H "Notes/Comments") by (cbn; tauto).
  reflexivity.
Qed.

Lemma contains_dash_app a b :
  contains_dash (a ++ b) = contains_dash a || contains_dash b.
Proof.
  induction a as [|c a IH]; [done|].
  change (String c a ++ b) with (String c (a ++ b)).
  cbn [contains_dash]. by rewrite IH, orb_assoc.
Qed.

Lemma strftime_has_dash d : contains_dash (strftime_Ymd d) = true.
Proof.
  unfold strftime_Ymd. rewrite contains_dash_app.
  change ("-" ++ ?s) with (String "-"%char s). cbn [contains_dash].
  by rewrite orb_true_r.
Qed.

Lemma strftime_not_empty d : strftime_Ymd d ≠ "".
Proof. intros H. pose proof (strftime_has_dash d) as Hd. by rewrite H in Hd. Qed.

Lemma convert_due_date_any t :
  _convert_to_notion_properties t !! "Due Date"
  = set_due_date (get t "Due Date" (PStr "")) ∅ !! "Due Date".
Proof.
  unfold _convert_to_notion_properties. cbv zeta. skip_other_fields.
  unfold set_due_date. destruct (get t "Due Date" (PStr "")) as [|s].
  - skip_other_fields. by rewrite lookup_empty.
  - destruct (truthy (PStr s)); [|skip_other_fields; by rewrite lookup_empty].
    destruct (negb (contains_dash s)).
    + destruct (strptime_mdY s); [by rewrite !lookup_insert_eq|].
      skip_other_fields. by rewrite lookup_empty.
    + by rewrite !lookup_insert_eq.
Qed.

(** X4.  The date of a request is stable: sent back as the Due Date of a task,
    it comes out unchanged.  The date is never empty and always holds a
    "-". *)
Theorem due_date_idempotent t v :
  _convert_to_notion_properties t !! "Due Date" = Some (DateStart v) ->
  (exists s, v = PStr s /\ s ≠ "" /\ contains_dash s = true) /\
  (forall t', t' !! "Due Date" = Some v ->
     _convert_to_notion_properties t' !! "Due Date" = Some (DateStart v)).
Proof.
  rewrite convert_due_date_any. intros H.
  assert (Hv : exists s, v = PStr s /\ s ≠ "" /\ contains_dash s = true).
  { unfold set_due_date in H. destruct (get t "Due Date" (PStr "")) as [|s];
      [by rewrite lookup_empty in H|].
    destruct (truthy (PStr s)) eqn:Hs; [|by rewrite lookup_empty in H].
    destruct (contains_dash s) eqn:Hd; cbn [negb] in H.
    - rewrite lookup_insert_eq in H. injection H as <-. exists s.
      split; [done|]. split; [|done]. intros ->. discriminate.
    - destruct (strptime_mdY s) as [dt|]; [|by rewrite lookup_empty in H].
      rewrite lookup_insert_eq in H. injection H as <-. exists (strftime_Ymd dt).
      split; [done|]. split; [apply strftime_not_empty|apply strftime_has_dash]. }
  split; [exact Hv|].
  destruct Hv as (s & -> & Hs & Hd). intros t' Ht'.
  by rewrite (convert_due_date t' s Ht' Hs), Hd.
Qed.

End ConvertMore.

(** ** More on the normaliser *)

Section NormaliserMore.

Implicit Types (t : task) (r : row) (v : pyval) (k key : string).

Lemma normalize_field_text t k v :
  all_text t -> v ≠ PNone ->
  exists t', normalize_field t (k, v) = Some t' /\ all_text t'.
Proof.
  intros Ht Hv. unfold normalize_field.
  assert (Hins : forall key w, w ≠ PNone -> all_text (<[key := w]> t)).
  { intros key w Hw key' w'. destruct (decide (key = key')) as [<-|Hne].
    - rewrite lookup_insert_eq. by intros [= <-].
    - rewrite lookup_insert_ne by done. apply Ht. }
  destruct (mapped k) as [new_key|]; [|eauto].
  destruct (_ && _ && _) eqn:Hc; [|eauto].
  apply andb_true_iff in Hc as [[_ Hin%bool_decide_eq_true]%andb_true_iff _].
  destruct Hin as [old Hold]. rewrite Hold.
  destruct old as [|old]; [by apply Ht in Hold|].
  destruct v as [|s]; [done|]. eexists. split; [done|]. by apply Hins.
Qed.

Lemma normalize_fields_text t r :
  all_text t -> Forall (fun kv => kv.2 ≠ PNone) r ->
  is_Some (normalize_fields t r).
Proof.
  intros Ht Hr. revert t Ht. induction Hr as [|[k v] r Hv _ IH]; intros t Ht; [by eexists|].
  cbn [normalize_fields].
  destruct (normalize_field_text t k v Ht Hv) as (t' & -> & Ht'). by apply IH.
Qed.

(** X5.  A row with no missing cell never makes the normaliser raise. *)
Theorem normalize_row_text_total r :
  Forall (fun kv => kv.2 ≠ PNone) r -> is_Some (normalize_row r).
Proof.
  intros Hr. unfold normalize_row.
  destruct (normalize_fields_text ∅ r) as [t ->]; [|done|by eexists].
  intros key v. by rewrite lookup_empty.
Qed.

Lemma normalize_fields_origin t t' r key :
  normalize_fields t r = Some t' -> is_Some (t' !! key) ->
  is_Some (t !! key) \/ exists k v, (k, v) ∈ r /\ target k = key.
Proof.
  revert t. induction r as [|[k v] r IH]; intros t.
  - intros [= <-]. by left.
  - cbn [normalize_fields]. destruct (normalize_field t (k, v)) as [t1|] eqn:H1; [|done].
    intros H Hkey. destruct (IH _ H Hkey) as [H1key|(k0 & v0 & Hin & Hk0)].
    + destruct (decide (target k = key)) as [Hk|Hne].
      * right. exists k, v. split; [apply elem_of_cons; by left|done].
      * left. by rewrite <- (proj2 (normalize_field_writes _ _ _ _ H1) key Hne).
    + right. exists k0, v0. split; [apply elem_of_cons; by right|done].
Qed.

(** X6.  The names of a normalised task are exactly the names its fields are
    stored under: the canonical name of each translated column, the own
    name of every other column, and nothing else. *)
Theorem normalized_names r t :
  normalize_row r = Some t ->
  forall key, is_Some (t !! key) <-> exists k v, (k, v) ∈ r /\ target k = key.
Proof.
  unfold normalize_row. destruct (normalize_fields ∅ r) as [t'|] eqn:Hr; [|done].
  intros [= <-] key. rewrite (proj2 (task_name_never_kept _ _ Hr)). split.
  - intros Hkey. destruct (normalize_fields_origin _ _ _ _ Hr Hkey) as [H|H]; [|done].
    rewrite lookup_empty in H. by destruct H.
  - intros (k & v & Hin & <-). by apply (normalize_fields_stored _ _ _ _ _ Hr Hin).
Qed.

End NormaliserMore.

(** ** More on the reader *)

Section ReaderMore.

Implicit Types (t : task) (r : row) (st : reader_state) (f : csv_file).

Lemma read_rows_prefix st rs :
  all_tasks (read_rows st rs).1 = all_tasks st ++ flat_map kept (readable_prefix rs).
Proof.
  revert st. induction rs as [|r rs IH]; intros st.
  - cbn. by rewrite app_nil_r.
  - cbn [read_rows readable_prefix]. unfold read_row.
    destruct (normalize_row r) as [t|] eqn:Hr; [|cbn; by rewrite app_nil_r].
    cbn [flat_map]. unfold kept at 1. rewrite Hr.
    destruct (truthy (get t "Category" PNone)); cbn [negb]; rewrite IH; [|done].
    cbn [all_tasks]. by rewrite <- app_assoc.
Qed.

Lemma read_file_prefix st f :
  all_tasks (read_file st f) = all_tasks st ++ flat_map kept (readable_prefix (rows f)).
Proof.
  unfold read_file. pose proof (read_rows_prefix st (rows f)) as H.
  destruct (read_rows st (rows f)) as [st' raised]. cbn [fst] in H.
  by destruct (raised || read_error f).
Qed.

Lemma foldl_read_file_prefix st files :
  all_tasks (foldl read_file st files)
  = all_tasks st
    ++ flat_map (fun f => flat_map kept (readable_prefix (rows f))) files.
Proof.
  revert st. induction files as [|f files IH]; intros st.
  - cbn. by rewrite app_nil_r.
  - cbn [foldl flat_map]. by rewrite IH, read_file_prefix, app_assoc.
Qed.

Lemma kept_truthy r t : t ∈ kept r -> truthy (get t "Category" PNone) = true.
Proof.
  unfold kept. destruct (normalize_row r) as [t'|]; [|by intros ?%elem_of_nil].
  destruct (truthy (get t' "Category" PNone)) eqn:E; [|by intros ?%elem_of_nil].
  by intros ->%list_elem_of_singleton.
Qed.

Lemma all_tasks_read_files files :
  all_tasks (read_files files)
  = flat_map (fun f => flat_map kept (readable_prefix (rows f))) files.
Proof. unfold read_files. by rewrite foldl_read_file_prefix. Qed.

Lemma all_tasks_have_category files :
  Forall (fun t => exists c, t !! "Category" = Some (PStr c) /\ c ≠ "")
         (all_tasks (read_files files)).
Proof.
  rewrite all_tasks_read_files. apply Forall_forall. intros t Ht.
  apply list_elem_of_In, in_flat_map in Ht as (f & _ & Ht).
  apply in_flat_map in Ht as (r & _ & Ht).
  apply list_elem_of_In, kept_truthy in Ht. unfold get in Ht.
  destruct (t !! "Category") as [[|c]|]; try discriminate.
  exists c. split; [done|]. intros ->. discriminate.
Qed.

(** X7.  A failure stays with its file.  The tasks of a run are, file after
    file, those of the rows read before the first row that raises; whether
    a file ends in an error, and what the other files hold, makes no
    difference to them.  Each task kept has a Category that is not
    empty. *)
Theorem failures_stay_with_their_file files :
  all_tasks (read_files files)
  = flat_map (fun f => flat_map kept (readable_prefix (rows f))) files /\
  Forall (fun t => exists c, t !! "Category" = Some (PStr c) /\ c ≠ "")
         (all_tasks (read_files files)).
Proof. split; [apply all_tasks_read_files|apply all_tasks_have_category]. Qed.

Lemma warnings_app out1 out2 : warnings (out1 ++ out2) = warnings out1 + warnings out2.
Proof. unfold warnings. by rewrite List.filter_app, length_app. Qed.

Lemma read_row_counted st st' r :
  counted st -> read_row st r = Some st' -> counted st'.
Proof.
  unfold counted, read_row. intros Hst.
  destruct (normalize_row r) as [t|]; [|done].
  destruct (truthy (get t "Category" PNone)); cbn [negb]; [|by intros [= <-]].
  intros [= <-]. cbn [all_tasks unique_categories reader_out].
  rewrite length_app. cbn [length]. case_bool_decide as Hin.
  - rewrite warnings_app. cbn.
    rewrite (union_comm_L (unique_categories st)).
    rewrite (subseteq_union_1_L {[get t "Category" PNone]} (unique_categories st))
      by (by apply singleton_subseteq_l).
    lia.
  - rewrite size_union by (by apply disjoint_singleton_r).
    rewrite size_singleton. lia.
Qed.

Lemma read_rows_counted st rs : counted st -> counted (read_rows st rs).1.
Proof.
  revert st. induction rs as [|r rs IH]; intros st Hst; [done|].
  cbn [read_rows]. destruct (read_row st r) as [st'|] eqn:Hr; [|done].
  apply IH. by apply (read_row_counted st st' r).
Qed.

Lemma read_file_counted st f : counted st -> counted (read_file st f).
Proof.
  intros Hst. unfold read_file. pose proof (read_rows_counted st (rows f) Hst) as H.
  destruct (read_rows st (rows f)) as [st' raised]. cbn [fst] in H.
  destruct (raised || read_error f); [|done].
  unfold counted in *. cbn [all_tasks unique_categories reader_out].
  rewrite warnings_app. cbn. lia.
Qed.

(** X8.  Every task kept is accounted for: it either brought a Category not
    met before or drew one duplicate warning, so the tasks kept are as
    many as the distinct Categories plus the warnings. *)
Theorem duplicates_counted files :
  length (all_tasks (read_files files))
  = size (unique_categories (read_files files))
    + length (List.filter is_warning (reader_out (read_files files))).
Proof.
  change (counted (read_files files)). unfold read_files.
  assert (H0 : counted {| all_tasks := []; unique_categories := ∅; reader_out := [] |}).
  { unfold counted. cbn. by rewrite size_empty. }
  revert H0. generalize {| all_tasks := []; unique_categories := ∅; reader_out := [] |}.
  induction files as [|f files IH]; intros st Hst; [done|].
  cbn [foldl]. apply IH. by apply read_file_counted.
Qed.

End ReaderMore.

(** ** More on the sync driver *)

Section SyncMore.

Context {World : Type}.
Variable post_page : World -> properties -> World * bool.
Variable patch_page : World -> string -> properties -> World * bool.

Local Abbreviation process_task := (process_task post_page patch_page).
Local Abbreviation upload := (upload post_page patch_page).
Local Abbreviation process_csv_files := (process_csv_files post_page patch_page).

Implicit Types (t : task) (st : sync_state (World:=World)) (existing : index).

Lemma process_task_account mode existing st t :
  let st' := process_task mode existing st t in
  outcomes (counters st') = outcomes (counters st) + length (dispatch mode existing t) /\
  length (sync_out st') = length (sync_out st) + length (dispatch mode existing t).
Proof.
  unfold process_task, dispatch, update_task, create_task, outcomes. cbv zeta.
  destruct (lookup_index existing _) as [page|].
  - destruct (mode_in mode ["update"; "both"]); [|cbn; lia].
    destruct (patch_page _ _ _) as [w' []]; cbn; rewrite length_app; cbn; lia.
  - destruct (mode_in mode ["create"; "both"]); [|cbn; lia].
    destruct (post_page _ _) as [w' []]; cbn; rewrite length_app; cbn; lia.
Qed.

Lemma upload_account mode existing st tasks :
  let st' := upload mode existing st tasks in
  outcomes (counters st')
  = outcomes (counters st) + length (flat_map (dispatch mode existing) tasks) /\
  length (sync_out st')
  = length (sync_out st) + length (flat_map (dispatch mode existing) tasks).
Proof.
  cbv zeta. revert st. induction tasks as [|t tasks IH]; intros st; [cbn; lia|].
  change (upload mode existing st (t :: tasks))
    with (upload mode existing (process_task mode existing st t) tasks).
  destruct (IH (process_task mode existing st t)) as [-> ->].
  destruct (process_task_account mode existing st t) as [-> ->].
  cbn [flat_map]. rewrite length_app. lia.
Qed.

Lemma length_dispatch mode existing t :
  length (dispatch mode existing t) <= 1 /\
  (mode = "both" -> length (dispatch mode existing t) = 1).
Proof.
  unfold dispatch. split.
  - destruct (lookup_index existing _); destruct (mode_in mode _); cbn; lia.
  - intros ->. by destruct (lookup_index existing _).
Qed.

Lemma length_flat_map_dispatch mode existing tasks :
  length (flat_map (dispatch mode existing) tasks) <= length tasks /\
  (mode = "both" -> length (flat_map (dispatch mode existing) tasks) = length tasks).
Proof.
  induction tasks as [|t tasks [IHle IHeq]]; [cbn; split; [lia|done]|].
  cbn [flat_map]. rewrite length_app. cbn [length].
  destruct (length_dispatch mode existing t) as [Hle Heq]. split.
  - lia.
  - intros Hm. rewrite (Heq Hm), (IHeq Hm). lia.
Qed.

(** X9.  Every request ends in exactly one of created, updated and errors;
    no task gets more than one request, so the three counts never exceed
    the total, and in mode "both" they add up to it. *)
Theorem outcomes_account files mode existing w :
  let run := process_csv_files files mode existing w in
  outcomes (counters run) = length (calls run) /\
  length (calls run) <= total (counters run) /\
  (mode = "both" -> outcomes (counters run) = total (counters run)).
Proof.
  cbv zeta. rewrite calls_process_csv_files, total_process_csv_files.
  unfold process_csv_files.
  match goal with |- context [upload mode existing ?st0 ?tasks] =>
    destruct (upload_account mode existing st0 tasks) as [-> _] end.
  destruct (length_flat_map_dispatch mode existing (all_tasks (read_files files)))
    as [Hle Heq].
  cbn [counters]. unfold outcomes. cbn [created updated errors].
  split; [lia|]. split; [exact Hle|].
  intros Hm. rewrite (Heq Hm). lia.
Qed.

Lemma upload_idle mode existing st tasks :
  mode_in mode ["create"; "both"] = false ->
  mode_in mode ["update"; "both"] = false ->
  upload mode existing st tasks = st.
Proof.
  intros Hc Hu. revert st. induction tasks as [|t tasks IH]; intros st; [done|].
  change (upload mode existing st (t :: tasks))
    with (upload mode existing (process_task mode existing st t) tasks).
  rewrite IH. unfold process_task. rewrite Hc, Hu.
  by destruct (lookup_index existing _).
Qed.

(** X10.  A mode other than "create", "update" and "both" reads the files and
    sends nothing: the service is left as it was and the counts other than
    the total are zero. *)
Theorem unknown_mode_sends_nothing files mode existing w :
  mode ≠ "create" -> mode ≠ "update" -> mode ≠ "both" ->
  process_csv_files files mode existing w
  = mksync w (mktally (length (all_tasks (read_files files))) 0 0 0) []
           (reader_out (read_files files)).
Proof.
  intros Hc Hu Hb. unfold process_csv_files. apply upload_idle.
  - cbn. by rewrite !(proj2 (String.eqb_neq _ _)).
  - cbn. by rewrite !(proj2 (String.eqb_neq _ _)).
Qed.

(** X11.  The requests of a run answer to its tasks and to the index: an update
    is addressed to the page the index holds for the Category of a task of
    the run, in a mode that updates; a create is for a task whose Category
    the index does not hold, in a mode that creates; either carries the
    properties of that task. *)
Theorem requests_follow_index files mode existing w :
  Forall (fun c =>
            exists t, t ∈ all_tasks (read_files files) /\
              call_props c = _convert_to_notion_properties t /\
              match c with
              | UpdatePage page _ =>
                  lookup_index existing (get t "Category" PNone) = Some page /\
                  mode_in mode ["update"; "both"] = true
              | CreatePage _ =>
                  lookup_index existing (get t "Category" PNone) = None /\
                  mode_in mode ["create"; "both"] = true
              end)
         (calls (process_csv_files files mode existing w)).
Proof.
  rewrite calls_process_csv_files. apply Forall_forall. intros c Hc.
  apply list_elem_of_In, in_flat_map in Hc as (t & Ht & Hc).
  exists t. split; [by apply list_elem_of_In|].
  unfold dispatch in Hc.
  destruct (lookup_index existing _) as [page|] eqn:Hidx.
  - destruct (mode_in mode ["update"; "both"]) eqn:Hm; [|destruct Hc].
    destruct Hc as [<-|[]]. by cbn.
  - destruct (mode_in mode ["create"; "both"]) eqn:Hm; [|destruct Hc].
    destruct Hc as [<-|[]]. by cbn.
Qed.

(** X12.  No request goes out without a title: the Category it carries is a
    text that is not empty. *)
Theorem requests_have_title files mode existing w :
  Forall (fun c => exists s, call_props c !! "Category" = Some (Title (PStr s)) /\ s ≠ "")
         (calls (process_csv_files files mode existing w)).
Proof.
  rewrite calls_process_csv_files. apply Forall_forall. intros c Hc.
  apply list_elem_of_In, in_flat_map in Hc as (t & Ht & Hc).
  pose proof (all_tasks_have_category files) as Hall.
  rewrite Forall_forall in Hall.
  destruct (Hall t) as (s & Hs & Hne); [by apply list_elem_of_In|].
  exists s. split; [|done].
  assert (Hp : call_props c = _convert_to_notion_properties t).
  { unfold dispatch in Hc. destruct (lookup_index existing _);
      destruct (mode_in mode _); cbn in Hc; try contradiction;
      destruct Hc as [<-|Hc]; try contradiction; reflexivity. }
  rewrite Hp, convert_category. unfold get. by rewrite Hs.
Qed.

Lemma process_task_reliable mode existing st t :
  (forall w p, (post_page w p).2 = true) ->
  (forall w page p, (patch_page w page p).2 = true) ->
  let st' := process_task mode existing st t in
  let sent := dispatch mode existing t in
  errors (counters st') = errors (counters st) /\
  created (counters st') = created (counters st) + length (List.filter is_create sent) /\
  updated (counters st') = updated (counters st) + length (List.filter is_update sent).
Proof.
  intros Hpost Hpatch.
  unfold process_task, dispatch, update_task, create_task. cbv zeta.
  destruct (lookup_index existing _) as [page|].
  - destruct (mode_in mode ["update"; "both"]); [|cbn; lia].
    specialize (Hpatch (world st) page (_convert_to_notion_properties t)).
    destruct (patch_page _ _ _) as [w' ok]. cbn [snd] in Hpatch. subst ok. cbn. lia.
  - destruct (mode_in mode ["create"; "both"]); [|cbn; lia].
    specialize (Hpost (world st) (_convert_to_notion_properties t)).
    destruct (post_page _ _) as [w' ok]. cbn [snd] in Hpost. subst ok. cbn. lia.
Qed.

Lemma process_task_failing mode existing st t :
  (forall w p, (post_page w p).2 = false) ->
  (forall w page p, (patch_page w page p).2 = false) ->
  let st' := process_task mode existing st t in
  created (counters st') = created (counters st) /\
  updated (counters st') = updated (counters st) /\
  errors (counters st') = errors (counters st) + length (dispatch mode existing t).
Proof.
  intros Hpost Hpatch.
  unfold process_task, dispatch, update_task, create_task. cbv zeta.
  destruct (lookup_index existing _) as [page|].
  - destruct (mode_in mode ["update"; "both"]); [|cbn; lia].
    specialize (Hpatch (world st) page (_convert_to_notion_properties t)).
    destruct (patch_page _ _ _) as [w' ok]. cbn [snd] in Hpatch. subst ok. cbn. lia.
  - destruct (mode_in mode ["create"; "both"]); [|cbn; lia].
    specialize (Hpost (world st) (_convert_to_notion_properties t)).
    destruct (post_page _ _) as [w' ok]. cbn [snd] in Hpost. subst ok. cbn. lia.
Qed.

Lemma upload_reliable mode existing st tasks :
  (forall w p, (post_page w p).2 = true) ->
  (forall w page p, (patch_page w page p).2 = true) ->
  let st' := upload mode existing st tasks in
  let sent := flat_map (dispatch mode existing) tasks in
  errors (counters st') = errors (counters st) /\
  created (counters st') = created (counters st) + length (List.filter is_create sent) /\
  updated (counters st') = updated (counters st) + length (List.filter is_update sent).
Proof.
  intros Hpost Hpatch. cbv zeta. revert st.
  induction tasks as [|t tasks IH]; intros st; [cbn; lia|].
  change (upload mode existing st (t :: tasks))
    with (upload mode existing (process_task mode existing st t) tasks).
  destruct (IH (process_task mode existing st t)) as (-> & -> & ->).
  destruct (process_task_reliable mode existing st t Hpost Hpatch) as (-> & -> & ->).
  cbn [flat_map]. rewrite !List.filter_app, !length_app. lia.
Qed.

Lemma upload_failing mode existing st tasks :
  (forall w p, (post_page w p).2 = false) ->
  (forall w page p, (patch_page w page p).2 = false) ->
  let st' := upload mode existing st tasks in
  created (counters st') = created (counters st) /\
  updated (counters st') = updated (counters st) /\
  errors (counters st')
  = errors (counters st) + length (flat_map (dispatch mode existing) tasks).
Proof.
  intros Hpost Hpatch. cbv zeta. revert st.
  induction tasks as [|t tasks IH]; intros st; [cbn; lia|].
  change (upload mode existing st (t :: tasks))
    with (upload mode existing (process_task mode existing st t) tasks).
  destruct (IH (process_task mode existing st t)) as (-> & -> & ->).
  destruct (process_task_failing mode existing st t Hpost Hpatch) as (-> & -> & ->).
  cbn [flat_map]. rewrite length_app. lia.
Qed.

(** X13.  Against a service that accepts every request a run has no error, and
    it counts as created the create requests and as updated the update
    requests it sent. *)
Theorem reliable_service_counts files mode existing w :
  (forall w p, (post_page w p).2 = true) ->
  (forall w page p, (patch_page w page p).2 = true) ->
  let run := process_csv_files files mode existing w in
  errors (counters run) = 0 /\
  created (counters run) = length (List.filter is_create (calls run)) /\
  updated (counters run) = length (List.filter is_update (calls run)).
Proof.
  intros Hpost Hpatch. cbv zeta. rewrite calls_process_csv_files.
  unfold process_csv_files.
  match goal with |- context [upload mode existing ?st0 ?tasks] =>
    destruct (upload_reliable mode existing st0 tasks Hpost Hpatch) as (-> & -> & ->) end.
  done.
Qed.

(** X14.  Against a service that refuses every request a run still goes through
    all its tasks: nothing is counted as created or updated, and the
    errors are as many as the requests. *)
Theorem failing_service_counts files mode existing w :
  (forall w p, (post_page w p).2 = false) ->
  (forall w page p, (patch_page w page p).2 = false) ->
  let run := process_csv_files files mode existing w in
  created (counters run) = 0 /\ updated (counters run) = 0 /\
  errors (counters run) = length (calls run) /\
  calls run = flat_map (dispatch mode existing) (all_tasks (read_files files)).
Proof.
  intros Hpost Hpatch. cbv zeta. rewrite calls_process_csv_files.
  unfold process_csv_files.
  match goal with |- context [upload mode existing ?st0 ?tasks] =>
    destruct (upload_failing mode existing st0 tasks Hpost Hpatch) as (-> & -> & ->) end.
  done.
Qed.

End SyncMore.

(** ** More on the index builder *)

Section FetchMore.

Context {World : Type}.
Variable post_query : World -> option string -> World * option query_response.

Local Abbreviation fetch_loop := (fetch_loop post_query).
Local Abbreviation served := (served post_query).

Implicit Types (idx : index) (data : query_response) (w : World).

Lemma fetch_loop_raises pages w_fail w_end :
  Forall (fun data => has_more data = true) pages ->
  forall w start_cursor idx sent fuel,
    served w start_cursor pages w_fail ->
    post_query w_fail (payload (cursor_after start_cursor pages)) = (w_end, None) ->
    length pages < fuel ->
    fetch_loop fuel w start_cursor idx sent =
    mkfetch w_end (foldl register idx (flat_map results pages))
            (sent ++ payload start_cursor
                  :: map (fun data => payload (next_cursor data)) pages)
            Raised.
Proof.
  intros Hpages. induction Hpages as [|data pages Hmore _ IH];
    intros w start_cursor idx sent fuel Hserved Hfail Hfuel.
  - destruct fuel as [|fuel]; [cbn in Hfuel; lia|].
    cbn [served] in Hserved. subst w_fail. cbn [cursor_after] in Hfail.
    cbn [fetch_loop]. by rewrite Hfail.
  - destruct fuel as [|fuel]; [cbn in Hfuel; lia|].
    cbn [served] in Hserved. destruct Hserved as (w' & Hq & Hserved).
    cbn [cursor_after] in Hfail. cbn [fetch_loop]. rewrite Hq, Hmore.
    rewrite (IH w' (next_cursor data) _ _ fuel Hserved Hfail) by (cbn in Hfuel; lia).
    cbn [flat_map map]. rewrite foldl_app. by rewrite <- app_assoc.
Qed.

(** X15.  When a request of the index builder raises after some pages were
    served, the builder stops there with the exception: it has sent one
    request per page served and the one that raised, none after it, and
    the index holds what the pages served had put in it. *)
Theorem fetch_raises_midway pages w w_fail w_end :
  Forall (fun data => has_more data = true) pages ->
  served w None pages w_fail ->
  post_query w_fail (payload (cursor_after None pages)) = (w_end, None) ->
  forall fuel, length pages < fuel ->
    _fetch_existing_tasks post_query fuel w =
    mkfetch w_end (foldl register ∅ (flat_map results pages))
            (None :: map (fun data => payload (next_cursor data)) pages)
            Raised.
Proof.
  intros Hpages Hserved Hfail fuel Hfuel. unfold _fetch_existing_tasks.
  by rewrite (fetch_loop_raises pages w_fail w_end Hpages w None ∅ [] fuel).
Qed.

Lemma fetch_loop_endless :
  (forall w c, exists w' data, post_query w c = (w', Some data) /\ has_more data = true) ->
  forall fuel w start_cursor idx sent,
    status (fetch_loop fuel w start_cursor idx sent) = Unfinished /\
    length (requests (fetch_loop fuel w start_cursor idx sent)) = length sent + fuel.
Proof.
  intros Hmore. induction fuel as [|fuel IH]; intros w start_cursor idx sent.
  - cbn. split; [done|lia].
  - cbn [fetch_loop]. destruct (Hmore w (payload start_cursor)) as (w' & data & -> & ->).
    destruct (IH w' (next_cursor data) (foldl register idx (results data))
                 (sent ++ [payload start_cursor])) as [-> ->].
    split; [done|]. rewrite length_app. cbn. lia.
Qed.

End FetchMore.

(** ** The entry point *)

Section MainMore.

Context {World : Type}.
Variable post_query : World -> option string -> World * option query_response.
Variable post_page : World -> properties -> World * bool.
Variable patch_page : World -> string -> properties -> World * bool.

Local Abbreviation served := (served post_query).
Local Abbreviation main := (main post_query post_page patch_page).
Local Abbreviation process_csv_files := (process_csv_files post_page patch_page).

Implicit Types (idx : index) (data : query_response) (w : World).

Lemma main_with_credentials fuel args_api_key args_database_id
    env_api_key env_database_id csv_files mode w :
  truthy (py_or args_api_key env_api_key) = true ->
  truthy (py_or args_database_id env_database_id) = true ->
  main fuel args_api_key args_database_id env_api_key env_database_id csv_files mode w =
  let f := _fetch_existing_tasks post_query fuel w in
  match status f with
  | Unfinished => None
  | Raised => Some (mkmain 1 (fetch_world f) [] [InitializeError; TopLevelError])
  | Completed =>
      let run := process_csv_files csv_files mode (existing_tasks f) (fetch_world f) in
      Some (mkmain 0 (world run) (calls run)
              (FoundExisting (size (existing_tasks f))
               :: map RunLine (sync_out run) ++ [UploadSummary (counters run)]))
  end.
Proof.
  intros Ha Hd. unfold main, initialize. rewrite Ha, Hd. cbn [negb]. cbv zeta.
  destruct (status (_fetch_existing_tasks post_query fuel w)) eqn:E; by rewrite ?E.
Qed.

(** X16.  The index builder has no bound of its own on the pages it asks for:
    against a service that answers every request with a page announcing
    more, it is still asking after any number of requests, and [main]
    never gets to an exit code. *)
Theorem endless_pages_never_end :
  (forall w c, exists w' data, post_query w c = (w', Some data) /\ has_more data = true) ->
  forall fuel w,
    status (_fetch_existing_tasks post_query fuel w) = Unfinished /\
    length (requests (_fetch_existing_tasks post_query fuel w)) = fuel /\
    (forall args_api_key args_database_id env_api_key env_database_id csv_files mode,
       truthy (py_or args_api_key env_api_key) = true ->
       truthy (py_or args_database_id env_database_id) = true ->
       main fuel args_api_key args_database_id env_api_key env_database_id
            csv_files mode w = None).
Proof.
  intros Hmore fuel w.
  assert (Hs : status (_fetch_existing_tasks post_query fuel w) = Unfinished /\
               length (requests (_fetch_existing_tasks post_query fuel w)) = fuel).
  { unfold _fetch_existing_tasks. apply (fetch_loop_endless post_query Hmore fuel w None ∅ []). }
  destruct Hs as [Hs Hn]. split; [exact Hs|]. split; [exact Hn|].
  intros a d ea ed csv_files mode Ha Hd.
  rewrite (main_with_credentials fuel a d ea ed csv_files mode w Ha Hd).
  cbv zeta. by rewrite Hs.
Qed.

(** X17.  Without an API key, or without a database identifier, [main] ends
    with exit code 1 before anything is asked of the service: no request
    is sent and no file is read.  A credential is missing when neither the
    option nor the environment gives a text that is not empty. *)
Theorem main_without_credentials fuel args_api_key args_database_id
    env_api_key env_database_id csv_files mode w :
  (truthy args_api_key = false -> truthy env_api_key = false ->
   main fuel args_api_key args_database_id env_api_key env_database_id csv_files mode w
   = Some (mkmain 1 w [] [ApiKeyRequired])) /\
  (truthy (py_or args_api_key env_api_key) = true ->
   truthy args_database_id = false -> truthy env_database_id = false ->
   main fuel args_api_key args_database_id env_api_key env_database_id csv_files mode w
   = Some (mkmain 1 w [] [DatabaseIdRequired])).
Proof.
  split.
  - intros Ha He. unfold main, py_or. by rewrite Ha, He.
  - intros Hk Ha He. unfold main. rewrite Hk. unfold py_or at 1. by rewrite Ha, He.
Qed.

(** X18.  Past the parsing of the command line, which leaves at least one
    file and one of the three modes, the value [main] returns is 0 or 1.
    It is 0 exactly when both credentials are there and the index was
    built to the end, whatever became of the requests for the tasks; a
    run that returns 1 has created and updated nothing. *)
Theorem main_exit_code fuel args_api_key args_database_id
    env_api_key env_database_id csv_files mode w res :
  csv_files ≠ [] ->
  mode_in mode ["create"; "update"; "both"] = true ->
  main fuel args_api_key args_database_id env_api_key env_database_id csv_files mode w
  = Some res ->
  (exit_code res = 0 \/ exit_code res = 1) /\
  (exit_code res = 1 -> main_calls res = []) /\
  (exit_code res = 0 <->
     truthy (py_or args_api_key env_api_key) = true /\
     truthy (py_or args_database_id env_database_id) = true /\
     status (_fetch_existing_tasks post_query fuel w) = Completed).
Proof.
  intros _ _.
  destruct (truthy (py_or args_api_key env_api_key)) eqn:Ha.
  - destruct (truthy (py_or args_database_id env_database_id)) eqn:Hd.
    + rewrite (main_with_credentials _ _ _ _ _ _ _ _ Ha Hd). cbv zeta.
      destruct (status (_fetch_existing_tasks post_query fuel w)); [| |done].
      * intros [= <-]. cbn. split; [by left|]. split; [done|]. by split.
      * intros [= <-]. cbn. split; [by right|]. split; [done|].
        split; [done|]. by intros (_ & _ & ?).
    + unfold main. rewrite Ha, Hd. cbn [negb]. intros [= <-]. cbn.
      split; [by right|]. split; [done|]. split; [done|]. by intros (_ & ? & _).
  - unfold main. rewrite Ha. cbn [negb]. intros [= <-]. cbn.
    split; [by right|]. split; [done|]. split; [done|]. by intros (? & _).
Qed.

(** X19.  When the index cannot be built, [main] ends with exit code 1 and the
    files are left alone: no task is created or updated. *)
Theorem main_index_failure pages w w_fail w_end fuel
    args_api_key args_database_id env_api_key env_database_id csv_files mode :
  truthy (py_or args_api_key env_api_key) = true ->
  truthy (py_or args_database_id env_database_id) = true ->
  Forall (fun data => has_more data = true) pages ->
  served w None pages w_fail ->
  post_query w_fail (payload (cursor_after None pages)) = (w_end, None) ->
  length pages < fuel ->
  main fuel args_api_key args_database_id env_api_key env_database_id csv_files mode w
  = Some (mkmain 1 w_end [] [InitializeError; TopLevelError]).
Proof.
  intros Ha Hd Hpages Hserved Hfail Hfuel.
  rewrite (main_with_credentials _ _ _ _ _ _ _ _ Ha Hd). cbv zeta.
  unfold _fetch_existing_tasks.
  by rewrite (fetch_loop_raises post_query pages w_fail w_end Hpages w None ∅ [] fuel).
Qed.

(** X20.  A whole run.  With both credentials, and the collection handed out as
    the pages [pages] followed by [final], [main] ends with exit code 0;
    its requests after the index is built are those of the tasks read from
    the files, each judged against the index of all the pages; the summary
    it prints is the tally of that upload, errors included. *)
Theorem main_snapshot_then_act pages final w w_end fuel
    args_api_key args_database_id env_api_key env_database_id csv_files mode :
  truthy (py_or args_api_key env_api_key) = true ->
  truthy (py_or args_database_id env_database_id) = true ->
  served w None (pages ++ [final]) w_end ->
  Forall (fun data => has_more data = true) pages ->
  has_more final = false ->
  length pages < fuel ->
  let existing := foldl register ∅ (flat_map results (pages ++ [final])) in
  let run := process_csv_files csv_files mode existing w_end in
  main fuel args_api_key args_database_id env_api_key env_database_id csv_files mode w
  = Some (mkmain 0 (world run) (calls run)
            (FoundExisting (size existing)
             :: map RunLine (sync_out run) ++ [UploadSummary (counters run)])) /\
  calls run = flat_map (dispatch mode existing) (all_tasks (read_files csv_files)).
Proof.
  intros Ha Hd Hserved Hpages Hfinal Hfuel existing run.
  split; [|apply calls_process_csv_files].
  rewrite (main_with_credentials _ _ _ _ _ _ _ _ Ha Hd). cbv zeta.
  unfold _fetch_existing_tasks.
  by rewrite (fetch_loop_served post_query pages final w_end Hpages Hfinal w None ∅ [] fuel).
Qed.

End MainMore.

(** ** The further properties at concrete inputs *)

Lemma convert_fields_only_witness :
  let t : task := {[ "Category" := PStr "Setup DB"; "Sprint" := PStr "Q1";
                     "Owner" := PStr "Ann" ]} in
  is_Some (_convert_to_notion_properties t !! "Category") /\
  is_Some (_convert_to_notion_properties t !! "Sprint") /\
  In "Sprint" canonical_fields /\
  ~ In "Owner" canonical_fields /\
  _convert_to_notion_properties t !! "Owner" = None.
Proof.
  intros t. destruct (convert_fields_only t) as (Htitle & Honly & Hnever).
  assert (Hsprint : is_Some (_convert_to_notion_properties t !! "Sprint")).
  { exists (RichText (PStr "Q1")). vm_compute. reflexivity. }
  assert (Howner : ~ In "Owner" canonical_fields).
  { cbn. intuition discriminate. }
  split; [exact Htitle|]. split; [exact Hsprint|].
  split; [exact (Honly "Sprint" Hsprint)|].
  split; [exact Howner|exact (Hnever "Owner" Howner)].
Defined.

Lemma convert_optional_fields_witness :
  let t : task := {[ "Category" := PStr "Setup DB"; "Sprint" := PStr "Q1";
                     "Estimated Effort" := PStr "" ]} in
  In "Sprint" ("Estimated Effort" :: rich_text_fields) /\
  t !! "Sprint" = Some (PStr "Q1") /\ "Q1" ≠ ""%string /\
  _convert_to_notion_properties t !! "Sprint" = Some (RichText (PStr "Q1")) /\
  In "Estimated Effort" ("Estimated Effort" :: rich_text_fields) /\
  t !! "Estimated Effort" = Some (PStr "") /\
  _convert_to_notion_properties t !! "Estimated Effort" = None /\
  In "Dependencies" ("Estimated Effort" :: rich_text_fields) /\
  t !! "Dependencies" = None /\
  _convert_to_notion_properties t !! "Dependencies" = None.
Proof.
  intros t.
  assert (H1 : In "Sprint" ("Estimated Effort" :: rich_text_fields)) by (cbn; tauto).
  assert (H2 : In "Estimated Effort" ("Estimated Effort" :: rich_text_fields)) by (cbn; tauto).
  assert (H3 : In "Dependencies" ("Estimated Effort" :: rich_text_fields)) by (cbn; tauto).
  destruct (convert_optional_fields t "Sprint" H1) as [Hsprint _].
  destruct (convert_optional_fields t "Estimated Effort" H2) as [_ Heffort].
  destruct (convert_optional_fields t "Dependencies" H3) as [_ Hdeps].
  split; [exact H1|]. split; [reflexivity|]. split; [discriminate|].
  split; [exact (Hsprint "Q1" eq_refl ltac:(discriminate))|].
  split; [exact H2|]. split; [reflexivity|].
  split; [exact (Heffort (or_intror (or_intror eq_refl)))|].
  split; [exact H3|]. split; [reflexivity|].
  exact (Hdeps (or_introl eq_refl)).
Defined.

Lemma convert_reads_fields_only_witness :
  let t1 : task := {[ "Category" := PStr "Setup DB"; "Owner" := PStr "Ann" ]} in
  let t2 : task := {[ "Category" := PStr "Setup DB"; "Owner" := PStr "Bob";
                      "Team" := PStr "Core" ]} in
  (forall key, In key canonical_fields -> t1 !! key = t2 !! key) /\
  _convert_to_notion_properties t1 = _convert_to_notion_properties t2.
Proof.
  intros t1 t2.
  assert (H : forall key, In key canonical_fields -> t1 !! key = t2 !! key).
  { intros key Hkey. cbn in Hkey.
    repeat (destruct Hkey as [<-|Hkey]; [vm_compute; reflexivity|]). contradiction. }
  split; [exact H|exact (convert_reads_fields_only t1 t2 H)].
Defined.

Lemma due_date_idempotent_witness :
  let t : task := {[ "Category" := PStr "Setup DB"; "Due Date" := PStr "03/15/2025" ]} in
  let t' : task := {[ "Category" := PStr "Other"; "Due Date" := PStr "2025-03-15" ]} in
  _convert_to_notion_properties t !! "Due Date" = Some (DateStart (PStr "2025-03-15")) /\
  t' !! "Due Date" = Some (PStr "2025-03-15") /\
  _convert_to_notion_properties t' !! "Due Date" = Some (DateStart (PStr "2025-03-15")).
Proof.
  intros t t'.
  assert (H : _convert_to_notion_properties t !! "Due Date"
              = Some (DateStart (PStr "2025-03-15"))) by (vm_compute; reflexivity).
  destruct (due_date_idempotent t (PStr "2025-03-15") H) as [_ Hagain].
  split; [exact H|]. split; [reflexivity|]. exact (Hagain t' eq_refl).
Defined.

Lemma normalize_row_text_total_witness :
  let r : row := [("Task Name", PStr "Setup DB"); ("Enhancements", PStr "");
                  ("Acceptance Criteria", PStr "Must pass Y")] in
  Forall (fun kv : string * pyval => kv.2 ≠ PNone) r /\ is_Some (normalize_row r).
Proof.
  intros r.
  assert (H : Forall (fun kv : string * pyval => kv.2 ≠ PNone) r).
  { repeat constructor; discriminate. }
  split; [exact H|exact (normalize_row_text_total r H)].
Defined.

Lemma normalized_names_witness :
  let r : row := [("Task Name", PStr "Setup DB"); ("Owner", PStr "Ann")] in
  exists t,
    normalize_row r = Some t /\
    is_Some (t !! "Category") /\ is_Some (t !! "Owner") /\
    ~ is_Some (t !! "Task Name").
Proof.
  intros r.
  destruct (lookup_normalized r "Category" (PStr "Setup DB")) as (t & Ht & _);
    [vm_compute; reflexivity|].
  exists t. pose proof (normalized_names r t Ht) as Hnames.
  split; [exact Ht|]. split; [|split].
  - apply Hnames. exists "Task Name", (PStr "Setup DB").
    split; [repeat constructor|reflexivity].
  - apply Hnames. exists "Owner", (PStr "Ann").
    split; [repeat constructor|reflexivity].
  - intros (k & v & Hin & Hk)%Hnames.
    apply elem_of_cons in Hin as [Hin|Hin]; [injection Hin as -> ->; discriminate Hk|].
    apply elem_of_cons in Hin as [Hin|Hin]; [injection Hin as -> ->; discriminate Hk|].
    by apply elem_of_nil in Hin.
Defined.

Lemma outcomes_account_witness :
  let files := [mkfile "tasks.csv" [[("Task Name", PStr "Setup DB")];
                                    [("Task Name", PStr "New Task")]] false] in
  let run := process_csv_files scripted_post scripted_patch files "both"
               {[ "Setup DB" := "page_1" ]} [false] in
  "both" = "both" /\
  outcomes (counters run) = length (calls run) /\
  length (calls run) <= total (counters run) /\
  outcomes (counters run) = total (counters run) /\
  counters run = mktally 2 1 0 1.
Proof.
  intros files run.
  destruct (outcomes_account scripted_post scripted_patch files "both"
              {[ "Setup DB" := "page_1" ]} [false]) as (Hcalls & Hle & Hboth).
  split; [reflexivity|]. split; [exact Hcalls|]. split; [exact Hle|].
  split; [exact (Hboth eq_refl)|].
  vm_compute. reflexivity.
Defined.

Lemma unknown_mode_sends_nothing_witness :
  let files := [mkfile "tasks.csv" [[("Task Name", PStr "Setup DB")]] false] in
  "sync" ≠ "create" /\ "sync" ≠ "update" /\ "sync" ≠ "both" /\
  process_csv_files scripted_post scripted_patch files "sync" ∅ [false]
  = mksync [false] (mktally (length (all_tasks (read_files files))) 0 0 0) []
           (reader_out (read_files files)).
Proof.
  intros files.
  split; [discriminate|]. split; [discriminate|]. split; [discriminate|].
  apply unknown_mode_sends_nothing; discriminate.
Defined.

Lemma reliable_service_counts_witness :
  let accept_post := fun (w : unit) (_ : properties) => (w, true) in
  let accept_patch := fun (w : unit) (_ : string) (_ : properties) => (w, true) in
  let files := [mkfile "tasks.csv" [[("Task Name", PStr "Setup DB")];
                                    [("Task Name", PStr "New Task")]] false] in
  let run := process_csv_files accept_post accept_patch files "both"
               {[ "Setup DB" := "page_1" ]} tt in
  (forall w p, (accept_post w p).2 = true) /\
  (forall w page p, (accept_patch w page p).2 = true) /\
  errors (counters run) = 0 /\
  created (counters run) = length (List.filter is_create (calls run)) /\
  updated (counters run) = length (List.filter is_update (calls run)) /\
  counters run = mktally 2 1 1 0.
Proof.
  intros accept_post accept_patch files run.
  assert (Hpost : forall w p, (accept_post w p).2 = true) by reflexivity.
  assert (Hpatch : forall w page p, (accept_patch w page p).2 = true) by reflexivity.
  destruct (reliable_service_counts accept_post accept_patch files "both"
              {[ "Setup DB" := "page_1" ]} tt Hpost Hpatch) as (He & Hc & Hu).
  split; [exact Hpost|]. split; [exact Hpatch|]. split; [exact He|].
  split; [exact Hc|]. split; [exact Hu|]. vm_compute. reflexivity.
Defined.

Lemma failing_service_counts_witness :
  let refuse_post := fun (w : unit) (_ : properties) => (w, false) in
  let refuse_patch := fun (w : unit) (_ : string) (_ : properties) => (w, false) in
  let files := [mkfile "tasks.csv" [[("Task Name", PStr "Setup DB")];
                                    [("Task Name", PStr "New Task")]] false] in
  let run := process_csv_files refuse_post refuse_patch files "both"
               {[ "Setup DB" := "page_1" ]} tt in
  (forall w p, (refuse_post w p).2 = false) /\
  (forall w page p, (refuse_patch w page p).2 = false) /\
  created (counters run) = 0 /\ updated (counters run) = 0 /\
  errors (counters run) = length (calls run) /\
  counters run = mktally 2 0 0 2.
Proof.
  intros refuse_post refuse_patch files run.
  assert (Hpost : forall w p, (refuse_post w p).2 = false) by reflexivity.
  assert (Hpatch : forall w page p, (refuse_patch w page p).2 = false) by reflexivity.
  destruct (failing_service_counts refuse_post refuse_patch files "both"
              {[ "Setup DB" := "page_1" ]} tt Hpost Hpatch) as (Hc & Hu & He & _).
  split; [exact Hpost|]. split; [exact Hpatch|]. split; [exact Hc|].
  split; [exact Hu|]. split; [exact He|]. vm_compute. reflexivity.
Defined.

Lemma fetch_raises_midway_witness :
  let record : page :=
    {| page_id := "page_1";
       page_props := Some {| Category := Some {| title :=
         Some [ {| text := Some {| content := Some "Setup DB" |} |} ] |} |} |} in
  let first : query_response :=
    {| results := [record]; has_more := true; next_cursor := Some "cursor-1" |} in
  let w := [Some first; None] in
  Forall (fun data => has_more data = true) [first] /\
  served scripted_query w None [first] [None] /\
  scripted_query [None] (payload (cursor_after None [first])) = ([], None) /\
  length [first] < 2 /\
  _fetch_existing_tasks scripted_query 2 w
  = mkfetch [] (foldl register ∅ (flat_map results [first]))
            [None; Some "cursor-1"] Raised.
Proof.
  intros record first w.
  assert (Hmore : Forall (fun data => has_more data = true) [first])
    by (repeat constructor).
  assert (Hserved : served scripted_query w None [first] [None]).
  { exists [None]. split; reflexivity. }
  assert (Hfuel : length [first] < 2) by (cbn; lia).
  split; [exact Hmore|]. split; [exact Hserved|]. split; [reflexivity|].
  split; [exact Hfuel|].
  exact (fetch_raises_midway scripted_query [first] w [None] [] Hmore Hserved eq_refl 2 Hfuel).
Defined.

Lemma endless_pages_never_end_witness :
  let more : query_response := {| results := []; has_more := true; next_cursor := None |} in
  let endless := fun (w : unit) (_ : option string) => (w, Some more) in
  let accept_post := fun (w : unit) (_ : properties) => (w, true) in
  let accept_patch := fun (w : unit) (_ : string) (_ : properties) => (w, true) in
  (forall w c, exists w' data, endless w c = (w', Some data) /\ has_more data = true) /\
  status (_fetch_existing_tasks endless 7 tt) = Unfinished /\
  length (requests (_fetch_existing_tasks endless 7 tt)) = 7 /\
  truthy (py_or (PStr "secret") PNone) = true /\
  truthy (py_or PNone (PStr "db")) = true /\
  main endless accept_post accept_patch 7 (PStr "secret") PNone PNone (PStr "db")
       [] "both" tt = None.
Proof.
  intros more endless accept_post accept_patch.
  assert (H : forall w c, exists w' data,
                endless w c = (w', Some data) /\ has_more data = true).
  { intros w c. exists w, more. split; reflexivity. }
  destruct (endless_pages_never_end endless accept_post accept_patch H 7 tt)
    as (Hs & Hn & Hmain).
  split; [exact H|]. split; [exact Hs|]. split; [exact Hn|].
  split; [reflexivity|]. split; [reflexivity|].
  exact (Hmain (PStr "secret") PNone PNone (PStr "db") [] "both" eq_refl eq_refl).
Defined.

Lemma main_without_credentials_witness :
  let files := [mkfile "tasks.csv" [[("Task Name", PStr "Setup DB")]] false] in
  (truthy PNone = false /\ truthy (PStr "") = false /\
   main scripted_query (World:=list (option query_response))
        (fun w _ => (w, true)) (fun w _ _ => (w, true))
        3 PNone PNone (PStr "") (PStr "db") files "both" []
   = Some (mkmain 1 [] [] [ApiKeyRequired])) /\
  (truthy (py_or (PStr "secret") PNone) = true /\
   main scripted_query (World:=list (option query_response))
        (fun w _ => (w, true)) (fun w _ _ => (w, true))
        3 (PStr "secret") PNone PNone PNone files "both" []
   = Some (mkmain 1 [] [] [DatabaseIdRequired])).
Proof.
  intros files. split.
  - split; [reflexivity|]. split; [reflexivity|].
    apply main_without_credentials; reflexivity.
  - split; [reflexivity|].
    apply main_without_credentials; reflexivity.
Defined.

Lemma main_exit_code_witness :
  let record : page :=
    {| page_id := "page_1";
       page_props := Some {| Category := Some {| title :=
         Some [ {| text := Some {| content := Some "Setup DB" |} |} ] |} |} |} in
  let final : query_response :=
    {| results := [record]; has_more := false; next_cursor := None |} in
  let one_page := fun (w : unit) (_ : option string) => (w, Some final) in
  let refuse_post := fun (w : unit) (_ : properties) => (w, false) in
  let refuse_patch := fun (w : unit) (_ : string) (_ : properties) => (w, false) in
  let files := [mkfile "tasks.csv" [[("Task Name", PStr "Setup DB")];
                                    [("Task Name", PStr "New Task")]] false] in
  let run := process_csv_files refuse_post refuse_patch files "both"
               (existing_tasks (_fetch_existing_tasks one_page 1 tt)) tt in
  let res := mkmain 0 (world run) (calls run)
               (FoundExisting 1 :: map RunLine (sync_out run)
                ++ [UploadSummary (counters run)]) in
  files ≠ [] /\
  mode_in "both" ["create"; "update"; "both"] = true /\
  main one_page refuse_post refuse_patch 1 (PStr "secret") PNone PNone (PStr "db")
       files "both" tt = Some res /\
  (exit_code res = 0 \/ exit_code res = 1) /\
  truthy (py_or (PStr "secret") PNone) = true /\
  truthy (py_or PNone (PStr "db")) = true /\
  status (_fetch_existing_tasks one_page 1 tt) = Completed /\
  counters run = mktally 2 0 0 2.
Proof.
  intros record final one_page refuse_post refuse_patch files run res.
  assert (Hfiles : files ≠ []) by discriminate.
  assert (H : main one_page refuse_post refuse_patch 1 (PStr "secret") PNone PNone
                (PStr "db") files "both" tt = Some res).
  { rewrite (main_with_credentials one_page refuse_post refuse_patch 1
               (PStr "secret") PNone PNone (PStr "db") files "both" tt eq_refl eq_refl).
    reflexivity. }
  destruct (main_exit_code one_page refuse_post refuse_patch 1 (PStr "secret") PNone
              PNone (PStr "db") files "both" tt res Hfiles eq_refl H)
    as (Hcode & _ & Hzero).
  split; [exact Hfiles|]. split; [reflexivity|].
  split; [exact H|]. split; [exact Hcode|].
  destruct (proj1 Hzero eq_refl) as (Ha & Hd & Hs).
  split; [exact Ha|]. split; [exact Hd|]. split; [exact Hs|].
  vm_compute. reflexivity.
Defined.

Lemma main_index_failure_witness :
  let files := [mkfile "tasks.csv" [[("Task Name", PStr "Setup DB")]] false] in
  let w : list (option query_response) := [None] in
  truthy (py_or (PStr "secret") PNone) = true /\
  truthy (py_or PNone (PStr "db")) = true /\
  Forall (fun data => has_more data = true) [] /\
  served scripted_query w None [] w /\
  scripted_query w (payload (cursor_after None [])) = ([], None) /\
  length ([] : list query_response) < 1 /\
  main scripted_query (fun w _ => (w, true)) (fun w _ _ => (w, true))
       1 (PStr "secret") PNone PNone (PStr "db") files "both" w
  = Some (mkmain 1 [] [] [InitializeError; TopLevelError]).
Proof.
  intros files w.
  assert (Hfuel : length ([] : list query_response) < 1) by (cbn; lia).
  split; [reflexivity|]. split; [reflexivity|]. split; [constructor|].
  split; [reflexivity|]. split; [reflexivity|]. split; [exact Hfuel|].
  exact (main_index_failure scripted_query (fun w _ => (w, true)) (fun w _ _ => (w, true))
           [] w w [] 1 (PStr "secret") PNone PNone (PStr "db") files "both"
           eq_refl eq_refl (List.Forall_nil _) eq_refl eq_refl Hfuel).
Defined.

Lemma main_snapshot_then_act_witness :
  let record : page :=
    {| page_id := "page_1";
       page_props := Some {| Category := Some {| title :=
         Some [ {| text := Some {| content := Some "Setup DB" |} |} ] |} |} |} in
  let final : query_response :=
    {| results := [record]; has_more := false; next_cursor := None |} in
  let one_page := fun (w : unit) (_ : option string) => (w, Some final) in
  let refuse_post := fun (w : unit) (_ : properties) => (w, false) in
  let accept_patch := fun (w : unit) (_ : string) (_ : properties) => (w, true) in
  let files := [mkfile "tasks.csv" [[("Task Name", PStr "Setup DB")];
                                    [("Task Name", PStr "New Task")]] false] in
  let existing := foldl register ∅ (flat_map results ([] ++ [final])) in
  let run := process_csv_files refuse_post accept_patch files "both" existing tt in
  truthy (py_or (PStr "secret") PNone) = true /\
  truthy (py_or PNone (PStr "db")) = true /\
  served one_page tt None ([] ++ [final]) tt /\
  has_more final = false /\
  length ([] : list query_response) < 1 /\
  main one_page refuse_post accept_patch 1 (PStr "secret") PNone PNone (PStr "db")
       files "both" tt
  = Some (mkmain 0 (world run) (calls run)
            (FoundExisting (size existing)
             :: map RunLine (sync_out run) ++ [UploadSummary (counters run)])) /\
  counters run = mktally 2 0 1 1.
Proof.
  intros record final one_page refuse_post accept_patch files existing run.
  assert (Hserved : served one_page tt None ([] ++ [final]) tt).
  { exists tt. split; reflexivity. }
  assert (Hfuel : length ([] : list query_response) < 1) by (cbn; lia).
  destruct (main_snapshot_then_act one_page refuse_post accept_patch [] final tt tt 1
              (PStr "secret") PNone PNone (PStr "db") files "both"
              eq_refl eq_refl Hserved (List.Forall_nil _) eq_refl Hfuel) as [Hmain _].
  split; [reflexivity|]. split; [reflexivity|]. split; [exact Hserved|].
  split; [reflexivity|]. split; [exact Hfuel|]. split; [exact Hmain|].
  vm_compute. reflexivity.
Defined.
